(** * Revolving line of credit ledger: a shallow embedding of
      [src/advances.py], [src/event.py] and [src/utils.py].

    The Python program keeps four running [Decimal] balances and an
    insertion-ordered mapping of advance records on one [AdvanceCalculator]
    object, and walks a list of event tuples up to an end date.

    Conventions of the embedding.
    - [decimal.Decimal] values are finite pairs (coefficient, exponent);
      [+], [-], [*] and [abs] round their result to the 28 significant digits
      of Python's default context (ROUND_HALF_EVEN); constructing a Decimal
      from an int or a float is exact; comparisons are exact.  Exponent
      limits (Emax/Emin) and the special values NaN and Infinity are outside
      the embedding.
    - a Python [float] is a finite dyadic number; a float literal is the
      nearest binary64 value (round to nearest, ties to even, normal range).
    - [datetime.date] is a (year, month, day) record; subtraction goes
      through the proleptic Gregorian ordinal as in the datetime module.
      Dates are taken already parsed ([convert_string_to_date] is [strptime]).
    - the [OrderedDict] of advances is an association list in insertion
      order.
    - the calculator object is a record threaded through every method; a
      method that can raise returns an [outcome] that still carries the
      object as the exception left it. *)

From Stdlib Require Import ZArith List Bool String Lia.
Import ListNotations.
Open Scope Z_scope.

(* ------------------------------------------------------------------ *)
(** ** Python's [decimal.Decimal] under the default context *)

Module Dec.

Record Decimal : Type := mkD { coef : Z; expo : Z }.

(** Context precision of [decimal.getcontext()]. *)
Definition prec : Z := 28.

(** Number of decimal digits of a non-negative coefficient ([len(str(n))]).
    Each division by ten lowers the binary logarithm, which bounds the
    recursion. *)
Fixpoint ndigits_aux (fuel : nat) (n : Z) : Z :=
  match fuel with
  | O => 1
  | S f => if n <? 10 then 1 else 1 + ndigits_aux f (n / 10)
  end.

Definition ndigits (n : Z) : Z :=
  ndigits_aux (Z.to_nat (Z.log2 n)) n.

(** Drop the [k] low digits of [c >= 0], rounding half to even. *)
Definition round_half_even (c k : Z) : Z :=
  let p := 10 ^ k in
  let q := c / p in
  let r := c mod p in
  if 2 * r <? p then q
  else if p <? 2 * r then q + 1
  else if Z.even q then q else q + 1.

(** [Decimal._fix]: round to the context precision. *)
Definition fix_prec (d : Decimal) : Decimal :=
  let a := Z.abs (coef d) in
  let n := ndigits a in
  if n <=? prec then d
  else
    let k := n - prec in
    let q := round_half_even a k in
    if q =? 10 ^ prec
    then mkD (Z.sgn (coef d) * 10 ^ (prec - 1)) (expo d + k + 1)
    else mkD (Z.sgn (coef d) * q) (expo d + k).

(** [Decimal(n)] for an int [n]: exact. *)
Definition of_Z (n : Z) : Decimal := mkD n 0.

Definition zero : Decimal := of_Z 0.

(** [copy_negate]: exact. *)
Definition neg (a : Decimal) : Decimal := mkD (- coef a) (expo a).

(** Coefficient of [a] once both operands are written at the smaller of the
    two exponents. *)
Definition aligned (a b : Decimal) : Z :=
  coef a * 10 ^ (expo a - Z.min (expo a) (expo b)).

(** [a + b]: the exact sum at the smaller exponent, then rounded. *)
Definition add (a b : Decimal) : Decimal :=
  fix_prec (mkD (aligned a b + aligned b a) (Z.min (expo a) (expo b))).

(** [a - b] is [a + b.copy_negate()]. *)
Definition sub (a b : Decimal) : Decimal := add a (neg b).

(** [a * b]: product of coefficients, sum of exponents, then rounded. *)
Definition mul (a b : Decimal) : Decimal :=
  fix_prec (mkD (coef a * coef b) (expo a + expo b)).

(** [abs(a)]: [copy_abs] followed by context rounding. *)
Definition abs (a : Decimal) : Decimal :=
  fix_prec (mkD (Z.abs (coef a)) (expo a)).

(** Comparisons are numeric and exact. *)
Definition cmp (a b : Decimal) : comparison :=
  aligned a b ?= aligned b a.

Definition eqb (a b : Decimal) : bool :=
  match cmp a b with Eq => true | _ => false end.
Definition ltb (a b : Decimal) : bool :=
  match cmp a b with Lt => true | _ => false end.
Definition gtb (a b : Decimal) : bool :=
  match cmp a b with Gt => true | _ => false end.
Definition leb (a b : Decimal) : bool := negb (gtb a b).

End Dec.

Abbreviation Decimal := Dec.Decimal.
Abbreviation D := Dec.of_Z.

Declare Scope dec_scope.
Delimit Scope dec_scope with dec.
Bind Scope dec_scope with Dec.Decimal.
Infix "+" := Dec.add : dec_scope.
Infix "-" := Dec.sub : dec_scope.
Infix "*" := Dec.mul : dec_scope.
Infix "==" := Dec.eqb (at level 70, no associativity) : dec_scope.
Infix "<?" := Dec.ltb : dec_scope.
Infix ">?" := Dec.gtb : dec_scope.

(* ------------------------------------------------------------------ *)
(** ** Python floats, as far as the program meets them *)

Module Float.

(** A finite binary64 value [fnum * 2 ^ fexp]. *)
Record float : Type := mkF { fnum : Z; fexp : Z }.

(** Scale the positive fraction [n / d] by [2 ^ (- e)]. *)
Definition scaled (n d e : Z) : Z * Z :=
  if e <? 0 then (n * 2 ^ (- e), d) else (n, d * 2 ^ e).

(** Round the positive fraction [n' / d'] to an integer, ties to even. *)
Definition round_nearest_even (n' d' : Z) : Z :=
  let q := n' / d' in
  let r := n' mod d' in
  if 2 * r <? d' then q
  else if d' <? 2 * r then q + 1
  else if Z.even q then q else q + 1.

(** The float denoted by the decimal literal [n / d] with [0 < n], [0 < d]:
    the nearest value with a 53-bit significand. *)
Definition of_ratio (n d : Z) : float :=
  let e0 := Z.log2 n - Z.log2 d - 52 in
  let e := if (let '(n', d') := scaled n d e0 in n' / d' <? 2 ^ 52)
           then e0 - 1 else e0 in
  let '(n', d') := scaled n d e in
  let m := round_nearest_even n' d' in
  if m =? 2 ^ 53 then mkF (2 ^ 52) (e + 1) else mkF m e.

(** Largest [k <= fuel] such that [2 ^ k] divides [m]. *)
Fixpoint twos (fuel : nat) (m : Z) : Z :=
  match fuel with
  | O => 0
  | S f => if (m =? 0) || Z.odd m then 0 else 1 + twos f (m / 2)
  end.

(** [float.as_integer_ratio]: the fraction in lowest terms; the denominator
    is a power of two, returned here as its exponent. *)
Definition as_integer_ratio (f : float) : Z * Z :=
  if 0 <=? fexp f then (fnum f * 2 ^ fexp f, 0)
  else
    let t := Z.min (twos (Z.to_nat (- fexp f)) (fnum f)) (- fexp f) in
    (fnum f / 2 ^ t, - fexp f - t).

(** [Decimal(f)] ([Decimal.from_float]) is exact: [n / 2^k = n * 5^k / 10^k]. *)
Definition to_Decimal (f : float) : Decimal :=
  let '(n, k) := as_integer_ratio f in
  Dec.mkD (n * 5 ^ k) (- k).

End Float.

(* ------------------------------------------------------------------ *)
(** ** [datetime.date] *)

Module Datetime.

Record date : Type := mkdate { year : Z; month : Z; day : Z }.

Definition is_leap (y : Z) : bool :=
  (y mod 4 =? 0) && (negb (y mod 100 =? 0) || (y mod 400 =? 0)).

Definition days_before_year (y : Z) : Z :=
  let y' := y - 1 in y' * 365 + y' / 4 - y' / 100 + y' / 400.

Definition DAYS_BEFORE_MONTH : list Z :=
  [-1; 0; 31; 59; 90; 120; 151; 181; 212; 243; 273; 304; 334].

Definition days_before_month (y m : Z) : Z :=
  nth (Z.to_nat m) DAYS_BEFORE_MONTH 0
  + (if (2 <? m) && is_leap y then 1 else 0).

Definition toordinal (d : date) : Z :=
  days_before_year (year d) + days_before_month (year d) (month d) + day d.

(** Dates compare as their (year, month, day) triples. *)
Definition cmp (a b : date) : comparison :=
  match year a ?= year b with
  | Eq => match month a ?= month b with
          | Eq => day a ?= day b
          | c => c
          end
  | c => c
  end.

Definition eqb (a b : date) : bool :=
  match cmp a b with Eq => true | _ => false end.
Definition ltb (a b : date) : bool :=
  match cmp a b with Lt => true | _ => false end.
Definition gtb (a b : date) : bool :=
  match cmp a b with Gt => true | _ => false end.
Definition leb (a b : date) : bool := negb (gtb a b).

End Datetime.

(* ------------------------------------------------------------------ *)
(** ** [src/utils.py] *)

(** [get_date_difference(current_date, last_date).days] *)
Definition get_date_difference_days (current_date last_date : Datetime.date) : Z :=
  Datetime.toordinal current_date - Datetime.toordinal last_date.

(** The amount slot of an event tuple, before [Event] normalises it. *)
Inductive raw_amount : Type :=
| AmtInt (n : Z)
| AmtFloat (f : Float.float)
| AmtDecimal (d : Decimal).

(** An event tuple [(id, type, amount, date)]. *)
Definition event_tuple : Type := Z * string * raw_amount * Datetime.date.

(** A row of the events file as [csv.reader] yields it: type, date, and the
    text of the amount, a positive decimal numeral given as a fraction. *)
Record csv_row : Type :=
  mkRow { row_type : string; row_date : Datetime.date; row_amount : Z * Z }.

Fixpoint csv_rows_from (index : Z) (rows : list csv_row) : list event_tuple :=
  match rows with
  | [] => []
  | row :: rest =>
      (index + 1, row_type row,
       AmtFloat (Float.of_ratio (fst (row_amount row)) (snd (row_amount row))),
       row_date row) :: csv_rows_from (index + 1) rest
  end.

(** [csv_events_to_list_tuple], past the file reading: every amount goes
    through [float(row[2])]. *)
Definition csv_events_to_list_tuple (rows : list csv_row) : list event_tuple :=
  csv_rows_from 0 rows.

(* ------------------------------------------------------------------ *)
(** ** [src/event.py] *)

Record Event : Type := mkEvent {
  id : Z;
  type : string;
  amount : Decimal;
  date : Datetime.date;
  is_last : bool;
  is_same_date : bool;
  state : option string
}.

(** [Decimal(self.amount)] of [__post_init__]. *)
Definition to_amount (a : raw_amount) : Decimal :=
  match a with
  | AmtInt n => D n
  | AmtFloat f => Float.to_Decimal f
  | AmtDecimal d => d
  end.

(** [Event] applied to an unpacked tuple: the dataclass constructor followed
    by [__post_init__]. *)
Definition Event_of_tuple (t : event_tuple) : Event :=
  let '(i, ty, a, d) := t in
  mkEvent i ty (to_amount a) d false false None.

Definition set_is_last (b : bool) (e : Event) : Event :=
  mkEvent (id e) (type e) (amount e) (date e) b (is_same_date e) (state e).
Definition set_is_same_date (b : bool) (e : Event) : Event :=
  mkEvent (id e) (type e) (amount e) (date e) (is_last e) b (state e).
Definition set_date (d : Datetime.date) (e : Event) : Event :=
  mkEvent (id e) (type e) (amount e) d (is_last e) (is_same_date e) (state e).
Definition set_amount (a : Decimal) (e : Event) : Event :=
  mkEvent (id e) (type e) a (date e) (is_last e) (is_same_date e) (state e).
Definition set_state (s : option string) (e : Event) : Event :=
  mkEvent (id e) (type e) (amount e) (date e) (is_last e) (is_same_date e) s.

(* ------------------------------------------------------------------ *)
(** ** [src/advances.py]: the calculator object *)

(** One value of the [advances] mapping. *)
Record Advance : Type := mkAdvance {
  Date : Datetime.date;
  Initial_Amt : Decimal;
  Current_Balance : Decimal;
  is_paid : bool
}.

Definition set_Current_Balance (b : Decimal) (a : Advance) : Advance :=
  mkAdvance (Date a) (Initial_Amt a) b (is_paid a).
Definition set_is_paid (p : bool) (a : Advance) : Advance :=
  mkAdvance (Date a) (Initial_Amt a) (Current_Balance a) p.

(** The [OrderedDict]: keys in insertion order. *)
Definition ordered_dict : Type := list (Z * Advance).

(** [d[k] = v]: an existing key keeps its place, a new key goes last. *)
Fixpoint od_set (k : Z) (v : Advance) (d : ordered_dict) : ordered_dict :=
  match d with
  | [] => [(k, v)]
  | (k', v') :: rest =>
      if k' =? k then (k, v) :: rest else (k', v') :: od_set k v rest
  end.

Record AdvanceCalculator : Type := mkCalc {
  advance_balance : Decimal;
  interest_payable_balance : Decimal;
  interest_paid : Decimal;
  payments_for_future : Decimal;
  advances : ordered_dict;
  last_advance_balance : Decimal;
  last_interest_payable_balance : Decimal;
  last_interest_paid : Decimal;
  last_payments_for_future : Decimal;
  advance_count : Z;
  last_event : option Event;
  last_advance : option Event
}.

(** [AdvanceCalculator()] *)
Definition init : AdvanceCalculator :=
  mkCalc (D 0) (D 0) (D 0) (D 0) [] (D 0) (D 0) (D 0) (D 0) 0 None None.

Definition set_advance_balance (v : Decimal) (s : AdvanceCalculator) :=
  mkCalc v (interest_payable_balance s) (interest_paid s)
    (payments_for_future s) (advances s) (last_advance_balance s)
    (last_interest_payable_balance s) (last_interest_paid s)
    (last_payments_for_future s) (advance_count s) (last_event s)
    (last_advance s).
Definition set_interest_payable_balance (v : Decimal) (s : AdvanceCalculator) :=
  mkCalc (advance_balance s) v (interest_paid s)
    (payments_for_future s) (advances s) (last_advance_balance s)
    (last_interest_payable_balance s) (last_interest_paid s)
    (last_payments_for_future s) (advance_count s) (last_event s)
    (last_advance s).
Definition set_interest_paid (v : Decimal) (s : AdvanceCalculator) :=
  mkCalc (advance_balance s) (interest_payable_balance s) v
    (payments_for_future s) (advances s) (last_advance_balance s)
    (last_interest_payable_balance s) (last_interest_paid s)
    (last_payments_for_future s) (advance_count s) (last_event s)
    (last_advance s).
Definition set_payments_for_future (v : Decimal) (s : AdvanceCalculator) :=
  mkCalc (advance_balance s) (interest_payable_balance s) (interest_paid s)
    v (advances s) (last_advance_balance s)
    (last_interest_payable_balance s) (last_interest_paid s)
    (last_payments_for_future s) (advance_count s) (last_event s)
    (last_advance s).
Definition set_advances (v : ordered_dict) (s : AdvanceCalculator) :=
  mkCalc (advance_balance s) (interest_payable_balance s) (interest_paid s)
    (payments_for_future s) v (last_advance_balance s)
    (last_interest_payable_balance s) (last_interest_paid s)
    (last_payments_for_future s) (advance_count s) (last_event s)
    (last_advance s).
Definition set_advance_count (v : Z) (s : AdvanceCalculator) :=
  mkCalc (advance_balance s) (interest_payable_balance s) (interest_paid s)
    (payments_for_future s) (advances s) (last_advance_balance s)
    (last_interest_payable_balance s) (last_interest_paid s)
    (last_payments_for_future s) v (last_event s) (last_advance s).
Definition set_last_event (v : option Event) (s : AdvanceCalculator) :=
  mkCalc (advance_balance s) (interest_payable_balance s) (interest_paid s)
    (payments_for_future s) (advances s) (last_advance_balance s)
    (last_interest_payable_balance s) (last_interest_paid s)
    (last_payments_for_future s) (advance_count s) v (last_advance s).
Definition set_last_advance (v : option Event) (s : AdvanceCalculator) :=
  mkCalc (advance_balance s) (interest_payable_balance s) (interest_paid s)
    (payments_for_future s) (advances s) (last_advance_balance s)
    (last_interest_payable_balance s) (last_interest_paid s)
    (last_payments_for_future s) (advance_count s) (last_event s) v.

(** The four [last_*] assignments that open [process_event]. *)
Definition snapshot (s : AdvanceCalculator) : AdvanceCalculator :=
  mkCalc (advance_balance s) (interest_payable_balance s) (interest_paid s)
    (payments_for_future s) (advances s) (advance_balance s)
    (interest_payable_balance s) (interest_paid s)
    (payments_for_future s) (advance_count s) (last_event s)
    (last_advance s).

(** [LOAN_INTEREST_RATE = D(0.00035)]: the argument is a float literal. *)
Definition LOAN_INTEREST_RATE : Decimal :=
  Float.to_Decimal (Float.of_ratio 35 100000).

Definition EVENT_PAYMENT_TYPE : string := "payment".
Definition EVENT_ADVANCE_TYPE : string := "advance".
Definition EVENT_TRUNCATED_TYPE : string := "truncated".

Local Open Scope dec_scope.

(** The [daily_interest] property. *)
Definition daily_interest (self : AdvanceCalculator) : Decimal :=
  LOAN_INTEREST_RATE * advance_balance self.

(** [get_accrued_interests]: the day count is an int, promoted to Decimal by
    the multiplication. *)
Definition get_accrued_interests (self : AdvanceCalculator)
    (event_date last_event_date : Datetime.date) (inclusive : bool) : Decimal :=
  let date_delta := get_date_difference_days event_date last_event_date in
  if inclusive then D date_delta * daily_interest self
  else D (date_delta - 1)%Z * daily_interest self.

(** The [for] loop of [_decrease_oldest_active_balance] over the items still
    to visit.  It returns the items as the loop leaves them (an entry is
    written through its own key while it is the current one), the object with
    its two aggregates updated, and the loop's two local variables. *)
Fixpoint scan_advances (self : AdvanceCalculator) (items : ordered_dict)
    (remaining_amount : Decimal) (is_using_payment_from_event : bool)
  : ordered_dict * AdvanceCalculator * Decimal * bool :=
  match items with
  | [] => ([], self, remaining_amount, is_using_payment_from_event)
  | (advance_id, advance_data) :: rest =>
      if is_paid advance_data then
        let '(rest', self', r, u) :=
          scan_advances self rest remaining_amount is_using_payment_from_event in
        ((advance_id, advance_data) :: rest', self', r, u)
      else
        let advance_data_current_balance := Current_Balance advance_data in
        let decreased_advance_balance :=
          advance_data_current_balance - remaining_amount in
        if decreased_advance_balance == D 0 then
          ((advance_id,
            set_is_paid true (set_Current_Balance (D 0) advance_data)) :: rest,
           set_advance_balance (advance_balance self - remaining_amount) self,
           D 0, is_using_payment_from_event)
        else if decreased_advance_balance >? D 0 then
          let self1 :=
            set_advance_balance (advance_balance self - remaining_amount) self in
          ((advance_id,
            set_Current_Balance
              (Current_Balance advance_data - remaining_amount) advance_data)
             :: rest,
           (if is_using_payment_from_event
            then set_payments_for_future (D 0) self1 else self1),
           D 0, is_using_payment_from_event)
        else if decreased_advance_balance <? D 0 then
          let self1 :=
            set_advance_balance
              (advance_balance self - advance_data_current_balance) self in
          let self2 :=
            set_payments_for_future (Dec.abs decreased_advance_balance) self1 in
          let '(rest', self', r, u) :=
            scan_advances self2 rest (payments_for_future self2) true in
          ((advance_id,
            set_is_paid true (set_Current_Balance (D 0) advance_data)) :: rest',
           self', r, u)
        else
          let '(rest', self', r, u) :=
            scan_advances self rest remaining_amount is_using_payment_from_event in
          ((advance_id, advance_data) :: rest', self', r, u)
  end.

Definition _decrease_oldest_active_balance (self : AdvanceCalculator)
    (remaining_amount : Decimal) : AdvanceCalculator :=
  let '(items, self1, remaining_amount, is_using_payment_from_event) :=
    scan_advances self (advances self) remaining_amount false in
  let self2 := set_advances items self1 in
  let advances_paid := map (fun kv => is_paid (snd kv)) (advances self2) in
  if (remaining_amount >? D 0)
     && forallb (fun b => b) advances_paid
     && negb is_using_payment_from_event
  then set_payments_for_future
         (payments_for_future self2 + remaining_amount) self2
  else self2.

(** Exceptions the program can raise. *)
Inductive exn : Type :=
| ValueError
| AttributeError
| IndexError.

(** What a call leaves behind: a value or an exception, and in both cases
    the object as mutated so far.  [OutOfFuel] is the embedding's own: a
    [while] loop was cut before its condition turned false. *)
Inductive outcome (A : Type) : Type :=
| Return (a : A) (self : AdvanceCalculator)
| Raise (e : exn) (self : AdvanceCalculator)
| OutOfFuel.
Arguments Return {A} a self.
Arguments Raise {A} e self.
Arguments OutOfFuel {A}.

Definition bind {A B : Type} (m : outcome A)
    (k : A -> AdvanceCalculator -> outcome B) : outcome B :=
  match m with
  | Return a self => k a self
  | Raise e self => Raise e self
  | OutOfFuel => OutOfFuel
  end.

Notation "'do' ( x , s ) <- m ; k" := (bind m (fun x s => k))
  (at level 10, x name, s name, m at level 100, k at level 200).

(** The reconciliation block that follows the payoff in the [r > 0] branch
    of [_execute_payment_flow] (the [if] / [elif] pair on the two
    aggregates). *)
Definition reconcile (self : AdvanceCalculator) : AdvanceCalculator :=
  if (payments_for_future self >? D 0) && (advance_balance self >? D 0) then
    let advance_balance_overall_remaining_diff :=
      advance_balance self - payments_for_future self in
    if advance_balance_overall_remaining_diff == D 0 then
      set_payments_for_future (D 0) (set_advance_balance (D 0) self)
    else if advance_balance_overall_remaining_diff >? D 0 then
      set_payments_for_future (D 0)
        (set_advance_balance
           (advance_balance self - advance_balance_overall_remaining_diff) self)
    else if advance_balance_overall_remaining_diff <? D 0 then
      set_payments_for_future (Dec.abs advance_balance_overall_remaining_diff)
        (set_advance_balance (D 0) self)
    else self
  else if (advance_balance self <? D 0)
          && (interest_payable_balance self == D 0) then
    set_advance_balance (D 0)
      (set_payments_for_future (Dec.abs (advance_balance self)) self)
  else self.

Definition _execute_payment_flow (self : AdvanceCalculator)
    (current_event : Event) (increase_interest : bool) : outcome unit :=
  if interest_payable_balance self >? D 0 then
    let remaining_amount :=
      amount current_event - interest_payable_balance self in
    if remaining_amount == D 0 then
      Return tt
        (set_interest_paid (interest_paid self + amount current_event) self)
    else if remaining_amount <? D 0 then
      Return tt
        (set_interest_payable_balance (Dec.abs remaining_amount)
           (set_interest_paid (interest_paid self + amount current_event) self))
    else if remaining_amount >? D 0 then
      let self1 :=
        set_interest_paid
          (interest_paid self + interest_payable_balance self) self in
      let self2 := set_interest_payable_balance (D 0) self1 in
      let self3 := _decrease_oldest_active_balance self2 remaining_amount in
      let self4 := reconcile self3 in
      Return tt
        (if increase_interest
         then set_interest_payable_balance
                (interest_payable_balance self4 + daily_interest self4) self4
         else self4)
    else Return tt self
  else if interest_payable_balance self == D 0 then
    let remaining_amount := amount current_event in
    Return tt (_decrease_oldest_active_balance self remaining_amount)
  else if interest_payable_balance self <? D 0 then
    Raise ValueError self
  else Return tt self.

(** [event.state and event.state == self.EVENT_TRUNCATED_TYPE] *)
Definition is_truncated (event : Event) : bool :=
  match state event with
  | None => false
  | Some s => negb (String.eqb s "") && String.eqb s EVENT_TRUNCATED_TYPE
  end.

Definition _create_advance (self : AdvanceCalculator) (event : Event)
    (update_balance : bool) : AdvanceCalculator :=
  let self1 := set_advance_count (advance_count self + 1)%Z self in
  let is_paid := false in
  let '(event_amount, self2) :=
    if payments_for_future self1 >? D 0 then
      let advance_payments_for_future_difference :=
        amount event - payments_for_future self1 in
      if advance_payments_for_future_difference >? D 0 then
        (advance_payments_for_future_difference,
         set_payments_for_future (D 0) self1)
      else if advance_payments_for_future_difference == D 0 then
        (D 0, set_payments_for_future (D 0) self1)
      else if advance_payments_for_future_difference <? D 0 then
        (D 0,
         set_payments_for_future
           (Dec.abs advance_payments_for_future_difference) self1)
      else (amount event, self1)
    else (amount event, self1) in
  let self3 :=
    if is_truncated event then self2
    else set_advances
           (od_set (advance_count self2)
              (mkAdvance (date event) (amount event) event_amount is_paid)
              (advances self2)) self2 in
  if update_balance
  then set_advance_balance (advance_balance self3 + event_amount) self3
  else self3.

(** [process_event] mutates its second argument ([is_same_date]); the event
    is returned as the call leaves it. *)
Definition process_event (self : AdvanceCalculator) (event next_event : Event)
  : outcome Event :=
  let self := snapshot self in
  do (next_event, self) <-
    (if Datetime.eqb (date event) (date next_event) then
       let next_event := set_is_same_date true next_event in
       if String.eqb (type event) EVENT_ADVANCE_TYPE then
         Return next_event (_create_advance self event true)
       else if String.eqb (type event) EVENT_PAYMENT_TYPE then
         do (_, self) <- _execute_payment_flow self event false;
         Return next_event self
       else Return next_event self
     else
       if String.eqb (type event) EVENT_ADVANCE_TYPE then
         let self1 := _create_advance self event true in
         let self2 :=
           if is_same_date event then
             if advance_balance self1 <? D 0 then
               set_advance_balance (D 0)
                 (set_payments_for_future
                    (payments_for_future self1 + Dec.abs (advance_balance self1))
                    self1)
             else self1
           else self1 in
         let self3 :=
           set_interest_payable_balance
             (interest_payable_balance self2
              + get_accrued_interests self2 (date next_event) (date event) true)
             self2 in
         Return next_event (set_last_advance (Some event) self3)
       else if String.eqb (type event) EVENT_PAYMENT_TYPE then
         do (_, self) <- _execute_payment_flow self event false;
         Return next_event
           (set_interest_payable_balance
              (interest_payable_balance self
               + get_accrued_interests self (date next_event) (date event) true)
              self)
       else Return next_event self);
  Return next_event (set_last_event (Some event) self).

(** [events[i]] on a Python list: a negative index counts from the end, an
    index out of range is an [IndexError] (here [None]). *)
Definition py_index {A : Type} (l : list A) (i : Z) : option A :=
  let n := Z.of_nat (List.length l) in
  if (i <? 0)%Z
  then (if (i + n <? 0)%Z then None else nth_error l (Z.to_nat (i + n)))
  else nth_error l (Z.to_nat i).

(** [Event] applied to the unpacked [events[i]]. *)
Definition Event_at (events : list event_tuple) (i : Z) : option Event :=
  option_map Event_of_tuple (py_index events i).

(** [_get_future_event]: the [IndexError] is caught and becomes [None]. *)
Definition _get_future_event (events : list event_tuple)
    (future_event_count : Z) : option Event :=
  Event_at events future_event_count.

(** [getattr(next_event, "is_last", False)] and its [is_same_date] twin, on a
    variable that holds [None] or an [Event]. *)
Definition getattr_is_last (e : option Event) : bool :=
  match e with Some e => is_last e | None => false end.
Definition getattr_is_same_date (e : option Event) : bool :=
  match e with Some e => is_same_date e | None => false end.

(** The local variables of [get_advance_statistics] that outlive its first
    loop.  [event] is unbound, and [next_event] is [None], until the loop
    body has run. *)
Record locals : Type := mkLocals {
  event_count : Z;
  next_event_count : Z;
  event : option Event;
  next_event : option Event;
  is_end_date_detected : bool
}.

(** How the first loop ends: by its [return] statement, or by falling out
    (condition false, or [break]). *)
Inductive loop_exit : Type :=
| Returned (result : Decimal * Decimal * Decimal * Decimal)
| Fell (v : locals).

Fixpoint main_loop (fuel : nat) (events : list event_tuple)
    (end_date : Datetime.date) (total_events : Z)
    (self : AdvanceCalculator) (v : locals) : outcome loop_exit :=
  if (event_count v <? total_events)%Z && negb (getattr_is_last (next_event v))
  then
    match fuel with
    | O => OutOfFuel
    | S fuel' =>
        let next_event_count := (event_count v + 1)%Z in
        match Event_at events (event_count v) with
        | None => Raise IndexError self
        | Some event =>
            if Datetime.gtb (date event) end_date
            then Return (Returned (D 0, D 0, D 0, D 0)) self
            else
              let event :=
                if getattr_is_same_date (next_event v)
                then set_is_same_date true event else event in
              match Event_at events next_event_count with
              | None => Raise IndexError self
              | Some next_event =>
                  let step (next_event : Event) :=
                    do (next_event, self) <- process_event self event next_event;
                    main_loop fuel' events end_date total_events self
                      (mkLocals (event_count v + 1)%Z next_event_count
                         (Some event) (Some next_event) false) in
                  if (next_event_count =? total_events)%Z then
                    step (set_is_last true next_event)
                  else if Datetime.ltb (date event) end_date
                          && Datetime.leb end_date (date next_event) then
                    Return
                      (Fell (mkLocals (event_count v) next_event_count
                               (Some event)
                               (Some (set_is_last true next_event)) true))
                      self
                  else step next_event
              end
        end
    end
  else Return (Fell v) self.

(** The [while future_event_exists] loop, entered when the end date is the
    date of [next_event].  It returns [next_event] as the loop leaves it. *)
Fixpoint lookahead_loop (fuel : nat) (events : list event_tuple)
    (end_date : Datetime.date) (self : AdvanceCalculator)
    (event_count next_event_count future_event_count : Z)
    (event next_event : Event) : outcome Event :=
  match fuel with
  | O => OutOfFuel
  | S fuel' =>
      match _get_future_event events future_event_count with
      | None =>
          let next_event := set_date end_date (set_is_last true next_event) in
          process_event self event next_event
      | Some future_event =>
          if negb (Datetime.eqb (date next_event) (date future_event)) then
            let next_event := set_date end_date next_event in
            process_event self event next_event
          else
            let next_event := set_is_last false next_event in
            do (_, self) <- process_event self event next_event;
            let event_count := (event_count + 1)%Z in
            let next_event_count := (next_event_count + 1)%Z in
            let future_event_count := (future_event_count + 1)%Z in
            match Event_at events event_count with
            | None => Raise IndexError self
            | Some event =>
                match Event_at events next_event_count with
                | None => Raise IndexError self
                | Some next_event =>
                    lookahead_loop fuel' events end_date self event_count
                      next_event_count future_event_count event next_event
                end
            end
      end
  end.

(** The statements after the loops: the last event is applied, interest is
    accrued up to the end date, and the four magnitudes are returned. *)
Definition finalize (self : AdvanceCalculator) (end_date : Datetime.date)
    (next_event : option Event)
  : outcome (Decimal * Decimal * Decimal * Decimal) :=
  match next_event with
  | None => Raise AttributeError self
  | Some last_event =>
      let charge_today (self : AdvanceCalculator) :=
        set_interest_payable_balance
          (interest_payable_balance self + daily_interest self) self in
      do (_, self) <-
        (if Datetime.eqb (date last_event) end_date then
           if String.eqb (type last_event) EVENT_ADVANCE_TYPE then
             Return tt (charge_today (_create_advance self last_event true))
           else if String.eqb (type last_event) EVENT_PAYMENT_TYPE then
             do (_, self) <- _execute_payment_flow self last_event false;
             Return tt (charge_today self)
           else Return tt self
         else if Datetime.gtb end_date (date last_event) then
           do (_, self) <-
             (if String.eqb (type last_event) EVENT_ADVANCE_TYPE then
                Return tt (_create_advance self last_event true)
              else if String.eqb (type last_event) EVENT_PAYMENT_TYPE then
                _execute_payment_flow self last_event false
              else Return tt self);
           let self := charge_today self in
           Return tt
             (set_interest_payable_balance
                (interest_payable_balance self
                 + get_accrued_interests self end_date (date last_event) true)
                self)
         else Return tt self);
      Return (Dec.abs (advance_balance self),
              Dec.abs (interest_payable_balance self),
              Dec.abs (interest_paid self),
              Dec.abs (payments_for_future self)) self
  end.

(** The locals as the function initialises them. *)
Definition fresh_locals : locals := mkLocals 0 0 None None false.

(** [get_advance_statistics(events, end_date)], the end date already a
    date.  Each loop advances an index into [events], so the length of the
    list (plus one) bounds its iterations. *)
Definition get_advance_statistics (self : AdvanceCalculator)
    (events : list event_tuple) (end_date : Datetime.date)
  : outcome (Decimal * Decimal * Decimal * Decimal) :=
  let total_events := (Z.of_nat (List.length events) - 1)%Z in
  let fuel := S (List.length events) in
  do (exit, self) <-
    main_loop fuel events end_date total_events self fresh_locals;
  match exit with
  | Returned result => Return result self
  | Fell v =>
      do (next_event, self) <-
        (if is_end_date_detected v then
           match event v, next_event v with
           | Some event, Some next_event =>
               if Datetime.eqb end_date (date next_event) then
                 do (next_event, self) <-
                   lookahead_loop fuel events end_date self
                     (event_count v) (next_event_count v)
                     (event_count v + 2)%Z event next_event;
                 Return (Some next_event) self
               else
                 let next_event :=
                   set_amount (D 0) (set_date end_date next_event) in
                 do (next_event, self) <- process_event self event next_event;
                 Return (Some (set_state (Some EVENT_TRUNCATED_TYPE) next_event))
                   self
           | _, _ => Raise AttributeError self
           end
         else Return (next_event v) self);
      finalize self end_date next_event
  end.

(* ------------------------------------------------------------------ *)
(** ** Vocabulary of the properties *)

(** The object a call leaves behind, whatever its outcome; [self] stands
    for an outcome that carries none. *)
Definition object_after {A : Type} (self : AdvanceCalculator) (o : outcome A)
  : AdvanceCalculator :=
  match o with
  | Return _ s => s
  | Raise _ s => s
  | OutOfFuel => self
  end.

Definition all_paid (items : ordered_dict) : bool :=
  forallb (fun kv => is_paid (snd kv)) items.

(** The property of a stored record as the specification words it: balance
    not negative, and balance zero exactly when the record is marked paid. *)
Definition balance_zero_iff_paid (a : Advance) : Prop :=
  Dec.ltb (Current_Balance a) (D 0) = false
  /\ (Dec.eqb (Current_Balance a) (D 0) = true <-> is_paid a = true).

(** What the code maintains: balance not negative, and a record marked paid
    has balance zero. *)
Definition paid_has_zero_balance (a : Advance) : Prop :=
  Dec.ltb (Current_Balance a) (D 0) = false
  /\ (is_paid a = true -> Dec.eqb (Current_Balance a) (D 0) = true).

Definition records_ok (self : AdvanceCalculator) : Prop :=
  Forall (fun kv => paid_has_zero_balance (snd kv)) (advances self).

(** An event may open an advance when its amount is not negative. *)
Definition amount_ok (e : Event) : Prop :=
  Dec.ltb (amount e) (D 0) = false.

(** The objects reached from a fresh calculator by its operations, advances
    being drawn for amounts that are not negative.  A payment that raises
    still leaves an object behind. *)
Inductive reachable : AdvanceCalculator -> Prop :=
| reach_init : reachable init
| reach_create_advance (self : AdvanceCalculator) (e : Event) (update_balance : bool) :
    reachable self -> amount_ok e ->
    reachable (_create_advance self e update_balance)
| reach_payment (self : AdvanceCalculator) (e : Event) (increase_interest : bool) :
    reachable self ->
    reachable (object_after self (_execute_payment_flow self e increase_interest))
| reach_process_event (self : AdvanceCalculator) (e next_e : Event) :
    reachable self -> amount_ok e ->
    reachable (object_after self (process_event self e next_e))
| reach_statistics (self : AdvanceCalculator) (events : list event_tuple)
    (end_date : Datetime.date) :
    reachable self ->
    Forall (fun t => amount_ok (Event_of_tuple t)) events ->
    reachable (object_after self (get_advance_statistics self events end_date)).

Definition opt_amount_ok (o : option Event) : Prop :=
  match o with Some e => amount_ok e | None => True end.

(* ------------------------------------------------------------------ *)
(** ** Runs and objects used as instances *)

(** A run of the public entry point: an advance of 100, a payment of 150
    and an advance of 30, all on the end date.  The payment retires the
    first advance and banks 50; the second advance is opened fully
    pre-funded. *)
Definition prefunded_events : list event_tuple :=
  [ (1, EVENT_ADVANCE_TYPE, AmtInt 100, Datetime.mkdate 2023 1 1);
    (2, EVENT_PAYMENT_TYPE, AmtInt 150, Datetime.mkdate 2023 1 1);
    (3, EVENT_ADVANCE_TYPE, AmtInt 30, Datetime.mkdate 2023 1 1) ].

Definition prefunded_state : AdvanceCalculator :=
  object_after init
    (get_advance_statistics init prefunded_events (Datetime.mkdate 2023 1 1)).

(** A run that reaches the block with a credit of 80 against a balance of
    200: advances of 100, 30, 100 and 200 and a payment of 150 on one day
    (the advance of 30 is opened at zero, the one of 100 at 80), then ten
    days later a payment of the interest accrued plus 80. *)
Definition overlap_events : list event_tuple :=
  [ (1, EVENT_ADVANCE_TYPE, AmtInt 100, Datetime.mkdate 2023 1 1);
    (2, EVENT_PAYMENT_TYPE, AmtInt 150, Datetime.mkdate 2023 1 1);
    (3, EVENT_ADVANCE_TYPE, AmtInt 30, Datetime.mkdate 2023 1 1);
    (4, EVENT_ADVANCE_TYPE, AmtInt 100, Datetime.mkdate 2023 1 1);
    (5, EVENT_ADVANCE_TYPE, AmtInt 200, Datetime.mkdate 2023 1 1);
    (6, EVENT_PAYMENT_TYPE,
     AmtDecimal (Dec.mkD 809799999999999999900426872478 (-28)),
     Datetime.mkdate 2023 1 11) ].

(** The object when the last payment enters the waterfall. *)
Definition overlap_entry : AdvanceCalculator :=
  object_after init
    (main_loop 7 overlap_events (Datetime.mkdate 2023 1 11) 5 init
       fresh_locals).

Definition overlap_payment : Event :=
  mkEvent 6 EVENT_PAYMENT_TYPE (Dec.mkD 809799999999999999900426872478 (-28))
    (Datetime.mkdate 2023 1 11) true false None.

(** The object right after the payoff of that payment's remainder. *)
Definition overlap_paid_off : AdvanceCalculator :=
  _decrease_oldest_active_balance
    (set_interest_payable_balance (D 0)
       (set_interest_paid
          (interest_paid overlap_entry + interest_payable_balance overlap_entry)
          overlap_entry))
    (amount overlap_payment - interest_payable_balance overlap_entry).

(** An advance of 1000 followed ten days later by another event: the
    object once the first pair has been processed, with ten days of interest
    payable. *)
Definition accrued_state : AdvanceCalculator :=
  object_after init
    (process_event init
       (mkEvent 1 EVENT_ADVANCE_TYPE (D 1000) (Datetime.mkdate 2023 1 1)
          false false None)
       (mkEvent 2 EVENT_PAYMENT_TYPE (D 5) (Datetime.mkdate 2023 1 11)
          true false None)).

(** A payment of exactly the interest payable of [accrued_state]. *)
Definition exact_interest_payment : Event :=
  mkEvent 2 EVENT_PAYMENT_TYPE (interest_payable_balance accrued_state)
    (Datetime.mkdate 2023 1 11) true false None.

Definition negative_interest_state : AdvanceCalculator :=
  set_interest_payable_balance (D (-1)) init.

(** Two advances of 100 and 200 drawn on a fresh calculator. *)
Definition two_advances : AdvanceCalculator :=
  _create_advance
    (_create_advance init
       (mkEvent 1 EVENT_ADVANCE_TYPE (D 100) (Datetime.mkdate 2023 1 1)
          false false None) true)
    (mkEvent 2 EVENT_ADVANCE_TYPE (D 200) (Datetime.mkdate 2023 1 2)
       false false None) true.

(** An object whose aggregate balance has gone to -50, and an advance of 20
    that closes a same-date run. *)
Definition over_retired : AdvanceCalculator :=
  set_advance_balance (D (-50)) init.

Definition closing_advance (flag : bool) : Event :=
  mkEvent 3 EVENT_ADVANCE_TYPE (D 20) (Datetime.mkdate 2023 1 1)
    false flag None.

Definition later_event : Event :=
  mkEvent 4 EVENT_PAYMENT_TYPE (D 5) (Datetime.mkdate 2023 1 4)
    true false None.

(* ------------------------------------------------------------------ *)
(** ** Vocabulary of the further properties *)

(** How a payment may change one entry of the mapping: the key, the
    origination date and the requested amount stay, and an entry already
    marked paid stays as it is. *)
Definition record_kept (old new : Z * Advance) : Prop :=
  fst new = fst old
  /\ Date (snd new) = Date (snd old)
  /\ Initial_Amt (snd new) = Initial_Amt (snd old)
  /\ (is_paid (snd old) = true -> snd new = snd old).

(** Keys strictly increasing along the mapping, all in [(lo, hi]]. *)
Fixpoint keys_between (lo hi : Z) (d : ordered_dict) : Prop :=
  match d with
  | [] => True
  | (k, _) :: rest => (lo < k <= hi)%Z /\ keys_between k hi rest
  end.

(** The identifiers in use: increasing in insertion order, from 1 up to
    the counter. *)
Definition keys_ok (self : AdvanceCalculator) : Prop :=
  (0 <= advance_count self)%Z
  /\ keys_between 0 (advance_count self) (advances self).

(** The exceptions [get_advance_statistics] lets through on a list of two
    events or more. *)
Definition returns_or_ValueError {A : Type} (o : outcome A) : Prop :=
  match o with
  | Return _ _ => True
  | Raise e _ => e = ValueError
  | OutOfFuel => False
  end.

(** The four balances of the object are those of [s]. *)
Definition same_balances (s s' : AdvanceCalculator) : Prop :=
  advance_balance s' = advance_balance s
  /\ interest_payable_balance s' = interest_payable_balance s
  /\ interest_paid s' = interest_paid s
  /\ payments_for_future s' = payments_for_future s.

(** What the payoff scan and the reconciliation leave alone: the two
    interest balances, the snapshot, the counter and the two event
    references. *)
Definition payoff_frame (s s' : AdvanceCalculator) : Prop :=
  interest_payable_balance s' = interest_payable_balance s
  /\ interest_paid s' = interest_paid s
  /\ last_advance_balance s' = last_advance_balance s
  /\ last_interest_payable_balance s' = last_interest_payable_balance s
  /\ last_interest_paid s' = last_interest_paid s
  /\ last_payments_for_future s' = last_payments_for_future s
  /\ advance_count s' = advance_count s
  /\ last_event s' = last_event s
  /\ last_advance s' = last_advance s.

(** The snapshot of [s'] holds the four balances [s] had. *)
Definition snapshot_of (s s' : AdvanceCalculator) : Prop :=
  last_advance_balance s' = advance_balance s
  /\ last_interest_payable_balance s' = interest_payable_balance s
  /\ last_interest_paid s' = interest_paid s
  /\ last_payments_for_future s' = payments_for_future s.

(** What the first loop hands over when it falls out: a next event, and,
    after a [break], a current event with the two counters one apart. *)
Definition fell_ok (o : outcome loop_exit) : Prop :=
  match o with
  | Return (Returned _) _ => True
  | Return (Fell v) _ =>
      (0 <= event_count v)%Z
      /\ next_event v <> None
      /\ (is_end_date_detected v = true ->
          event v <> None
          /\ next_event_count v = (event_count v + 1)%Z)
  | Raise x _ => x = ValueError
  | OutOfFuel => False
  end.

(* ------------------------------------------------------------------ *)
(** ** Further runs and objects used as instances *)

Definition advance_of_100 : Event :=
  mkEvent 1 EVENT_ADVANCE_TYPE (D 100) (Datetime.mkdate 2023 1 1)
    false false None.

(** A fresh calculator after one advance of 100. *)
Definition one_open_advance : AdvanceCalculator :=
  _create_advance init advance_of_100 true.

Definition payment_of (n : Z) : Event :=
  mkEvent 9 EVENT_PAYMENT_TYPE (D n) (Datetime.mkdate 2023 1 11)
    false false None.

(** An event of a kind the calculator does not know. *)
Definition fee_event : Event :=
  mkEvent 7 "fee" (D 25) (Datetime.mkdate 2023 1 1) false false None.

(** Three events, the first on 2023-01-05 and the others later. *)
Definition three_events : list event_tuple :=
  [ (1, EVENT_ADVANCE_TYPE, AmtInt 100, Datetime.mkdate 2023 1 5);
    (2, EVENT_ADVANCE_TYPE, AmtInt 50, Datetime.mkdate 2023 1 6);
    (3, EVENT_PAYMENT_TYPE, AmtInt 10, Datetime.mkdate 2023 1 7) ].

(** An advance of 1000 and, five days later, a payment of 500. *)
Definition advance_then_payment : list event_tuple :=
  [ (1, EVENT_ADVANCE_TYPE, AmtInt 1000, Datetime.mkdate 2023 1 1);
    (2, EVENT_PAYMENT_TYPE, AmtInt 500, Datetime.mkdate 2023 1 6) ].

(* ------------------------------------------------------------------ *)
(** * Properties *)

Ltac by_evaluation := vm_compute; reflexivity.

(** ** Decimal arithmetic *)

Module DecFacts.
Import Dec.

Lemma ndigits_aux_pos (fuel : nat) (n : Z) : (1 <= ndigits_aux fuel n)%Z.
Proof.
  revert n; induction fuel as [|f IH]; intros n; cbn [ndigits_aux]; [lia|].
  destruct (n <? 10)%Z; [lia|]. specialize (IH (n / 10)%Z). lia.
Qed.

(** A coefficient with [d] digits is at least [10 ^ (d - 1)]. *)
Lemma ndigits_aux_lower (fuel : nat) (n : Z) :
  (0 < n)%Z -> (10 ^ (ndigits_aux fuel n - 1) <= n)%Z.
Proof.
  revert n; induction fuel as [|f IH]; intros n Hn; cbn [ndigits_aux].
  - change (10 ^ (1 - 1))%Z with 1%Z. lia.
  - destruct (Z.ltb_spec n 10) as [Hlt|Hge].
    + change (10 ^ (1 - 1))%Z with 1%Z. lia.
    + assert (Hq : (0 < n / 10)%Z) by (apply Z.div_str_pos; lia).
      specialize (IH _ Hq).
      pose proof (ndigits_aux_pos f (n / 10)) as Hp.
      replace (1 + ndigits_aux f (n / 10) - 1)%Z
        with (Z.succ (ndigits_aux f (n / 10) - 1)) by lia.
      rewrite Z.pow_succ_r by lia.
      pose proof (Z.mul_div_le n 10 ltac:(lia)). lia.
Qed.

Lemma ndigits_zero : ndigits 0 = 1%Z.
Proof. reflexivity. Qed.

(** With fuel for the binary logarithm the count is not cut short: the
    coefficient is below [10 ^ d]. *)
Lemma ndigits_aux_upper (fuel : nat) (n : Z) :
  (0 <= n)%Z -> (Z.log2 n <= Z.of_nat fuel)%Z ->
  (n < 10 ^ ndigits_aux fuel n)%Z.
Proof.
  revert n; induction fuel as [|f IH]; intros n Hn Hlog; cbn [ndigits_aux].
  - pose proof (Z.log2_nonneg n) as Hnn.
    assert (n <= 1)%Z by (apply Z.log2_null; lia).
    change (10 ^ 1)%Z with 10%Z. lia.
  - destruct (Z.ltb_spec n 10) as [Hlt|Hge].
    + change (10 ^ 1)%Z with 10%Z. lia.
    + assert (Hq : (0 < n / 10)%Z) by (apply Z.div_str_pos; lia).
      assert (Hq2 : (n / 10 < 2 ^ Z.log2 n)%Z).
      { pose proof (Z.log2_spec n ltac:(lia)) as [_ Hup].
        rewrite Z.pow_succ_r in Hup by apply Z.log2_nonneg.
        apply Z.div_lt_upper_bound; lia. }
      assert (Hlq : (Z.log2 (n / 10) < Z.log2 n)%Z)
        by (apply Z.log2_lt_pow2; assumption).
      specialize (IH (n / 10)%Z ltac:(lia) ltac:(lia)).
      pose proof (ndigits_aux_pos f (n / 10)) as Hp.
      replace (1 + ndigits_aux f (n / 10))%Z
        with (Z.succ (ndigits_aux f (n / 10))) by lia.
      rewrite Z.pow_succ_r by lia.
      pose proof (Z.mod_pos_bound n 10 ltac:(lia)).
      pose proof (Z.div_mod n 10 ltac:(lia)). lia.
Qed.

(** [ndigits] counts the decimal digits of a positive coefficient. *)
Lemma ndigits_spec (n : Z) :
  (0 < n)%Z -> (10 ^ (ndigits n - 1) <= n < 10 ^ ndigits n)%Z.
Proof.
  intros Hn. unfold ndigits. split.
  - apply ndigits_aux_lower. exact Hn.
  - apply ndigits_aux_upper; [lia|].
    rewrite Z2Nat.id by apply Z.log2_nonneg. lia.
Qed.

Lemma round_half_even_ge (c k : Z) :
  (0 <= k)%Z -> (c / 10 ^ k <= round_half_even c k)%Z.
Proof.
  intros Hk. unfold round_half_even. cbv zeta.
  generalize (c / 10 ^ k)%Z; intros q.
  repeat match goal with |- context [if ?b then _ else _] => destruct b end; lia.
Qed.

(** Rounding to the context precision keeps the sign. *)
Lemma fix_prec_sgn (d : Decimal) : Z.sgn (coef (fix_prec d)) = Z.sgn (coef d).
Proof.
  unfold fix_prec.
  destruct (Z.leb_spec (ndigits (Z.abs (coef d))) prec) as [Hle|Hgt]; [reflexivity|].
  assert (Ha : (0 < Z.abs (coef d))%Z).
  { destruct (Z.eq_dec (coef d) 0) as [E|E]; [|lia].
    rewrite E in Hgt. simpl in Hgt. rewrite ndigits_zero in Hgt.
    unfold prec in Hgt. lia. }
  set (a := Z.abs (coef d)) in *.
  set (k := (ndigits a - prec)%Z).
  assert (Hk : (0 < k)%Z) by (unfold k; lia).
  assert (Hq : (1 <= round_half_even a k)%Z).
  { pose proof (round_half_even_ge a k ltac:(lia)) as Hge.
    pose proof (ndigits_aux_lower (Z.to_nat (Z.log2 a)) a Ha) as Hlow.
    fold (ndigits a) in Hlow.
    assert (H10 : (10 ^ k <= 10 ^ (ndigits a - 1))%Z).
    { apply Z.pow_le_mono_r; unfold k, prec; lia. }
    assert (0 < 10 ^ k)%Z by (apply Z.pow_pos_nonneg; lia).
    assert (1 <= a / 10 ^ k)%Z.
    { apply Z.div_le_lower_bound; lia. }
    lia. }
  destruct (round_half_even a k =? 10 ^ prec)%Z; cbn [coef].
  - rewrite Z.sgn_mul.
    assert (Hp : (0 < 10 ^ (prec - 1))%Z) by (apply Z.pow_pos_nonneg; unfold prec; lia).
    rewrite (Z.sgn_pos _ Hp). lia.
  - rewrite Z.sgn_mul, (Z.sgn_pos (round_half_even a k)) by lia. lia.
Qed.

Lemma cmp_zero (x : Decimal) : cmp x zero = (coef x ?= 0)%Z.
Proof.
  unfold cmp, aligned, zero, of_Z; cbn [coef expo].
  rewrite Z.mul_0_l.
  assert (Hp : (0 < 10 ^ (expo x - Z.min (expo x) 0))%Z)
    by (apply Z.pow_pos_nonneg; lia).
  destruct (Z.compare_spec (coef x) 0) as [E|L|G].
  - rewrite E. reflexivity.
  - apply Z.compare_lt_iff. nia.
  - apply Z.compare_gt_iff. nia.
Qed.

Lemma compare_sgn (x : Z) : (x ?= 0)%Z = (Z.sgn x ?= 0)%Z.
Proof. destruct x; reflexivity. Qed.

(** The sign of a computed difference is the order of its operands: the
    rounding of [a - b] never changes how it compares with zero. *)
Lemma cmp_sub_zero (a b : Decimal) : cmp (sub a b) zero = cmp a b.
Proof.
  rewrite cmp_zero, compare_sgn. unfold sub, add. rewrite fix_prec_sgn.
  rewrite <- compare_sgn. cbn [coef]. unfold cmp, aligned, neg; cbn [coef expo].
  rewrite (Z.min_comm (expo b) (expo a)).
  set (x := (coef a * 10 ^ (expo a - Z.min (expo a) (expo b)))%Z).
  set (y := (coef b * 10 ^ (expo b - Z.min (expo a) (expo b)))%Z).
  replace (x + - coef b * 10 ^ (expo b - Z.min (expo a) (expo b)))%Z
    with (x - y)%Z by (unfold y; ring).
  destruct (Z.compare_spec x y) as [E|L|G].
  - apply Z.compare_eq_iff. lia.
  - apply Z.compare_lt_iff. lia.
  - apply Z.compare_gt_iff. lia.
Qed.

Lemma eqb_sub_zero (a b : Decimal) : eqb (sub a b) zero = eqb a b.
Proof. unfold eqb. rewrite cmp_sub_zero. reflexivity. Qed.
Lemma ltb_sub_zero (a b : Decimal) : ltb (sub a b) zero = ltb a b.
Proof. unfold ltb. rewrite cmp_sub_zero. reflexivity. Qed.
Lemma gtb_sub_zero (a b : Decimal) : gtb (sub a b) zero = gtb a b.
Proof. unfold gtb. rewrite cmp_sub_zero. reflexivity. Qed.

(** Exactly one of [==], [<], [>] holds. *)
Lemma trichotomy (a b : Decimal) :
  (eqb a b = true /\ ltb a b = false /\ gtb a b = false)
  \/ (eqb a b = false /\ ltb a b = true /\ gtb a b = false)
  \/ (eqb a b = false /\ ltb a b = false /\ gtb a b = true).
Proof. unfold eqb, ltb, gtb. destruct (cmp a b); auto. Qed.

Lemma abs_nonneg (a : Decimal) : ltb (abs a) zero = false.
Proof.
  unfold ltb. rewrite cmp_zero, compare_sgn. unfold abs.
  rewrite fix_prec_sgn. cbn [coef]. rewrite <- compare_sgn.
  destruct (Z.compare_spec (Z.abs (coef a)) 0); try reflexivity. lia.
Qed.

Lemma eqb_zero_refl : eqb zero zero = true.
Proof. reflexivity. Qed.

End DecFacts.

Lemma gtb_ltb_swap (a b : Decimal) : Dec.gtb a b = Dec.ltb b a.
Proof.
  unfold Dec.gtb, Dec.ltb, Dec.cmp.
  rewrite (Z.compare_antisym (Dec.aligned a b) (Dec.aligned b a)).
  destruct (Dec.aligned a b ?= Dec.aligned b a)%Z; reflexivity.
Qed.

Lemma eqb_not_ltb (a b : Decimal) : Dec.eqb a b = true -> Dec.ltb a b = false.
Proof. unfold Dec.eqb, Dec.ltb. destruct (Dec.cmp a b); congruence. Qed.

Lemma eqb_not_gtb (a b : Decimal) : Dec.eqb a b = true -> Dec.gtb a b = false.
Proof. unfold Dec.eqb, Dec.gtb. destruct (Dec.cmp a b); congruence. Qed.

Lemma ltb_not_eqb (a b : Decimal) : Dec.ltb a b = true -> Dec.eqb a b = false.
Proof. unfold Dec.eqb, Dec.ltb. destruct (Dec.cmp a b); congruence. Qed.

Lemma ltb_not_gtb (a b : Decimal) : Dec.ltb a b = true -> Dec.gtb a b = false.
Proof. unfold Dec.gtb, Dec.ltb. destruct (Dec.cmp a b); congruence. Qed.

Lemma gtb_not_eqb (a b : Decimal) : Dec.gtb a b = true -> Dec.eqb a b = false.
Proof. unfold Dec.eqb, Dec.gtb. destruct (Dec.cmp a b); congruence. Qed.

Lemma gtb_not_ltb (a b : Decimal) : Dec.gtb a b = true -> Dec.ltb a b = false.
Proof. unfold Dec.gtb, Dec.ltb. destruct (Dec.cmp a b); congruence. Qed.

(** The three tests of the code on a computed difference, read on the
    operands. *)
Lemma test_eq (a b : Decimal) : Dec.eqb (a - b) (D 0) = Dec.eqb a b.
Proof. exact (DecFacts.eqb_sub_zero a b). Qed.
Lemma test_lt (a b : Decimal) : Dec.ltb (a - b) (D 0) = Dec.ltb a b.
Proof. exact (DecFacts.ltb_sub_zero a b). Qed.
Lemma test_gt (a b : Decimal) : Dec.gtb (a - b) (D 0) = Dec.gtb a b.
Proof. exact (DecFacts.gtb_sub_zero a b). Qed.

(** ** The payment waterfall *)

(** C2. When interest payable is strictly positive and the payment equals it
    (the remainder [r] is zero), the whole payment is added to interest paid;
    interest payable keeps its value, and nothing else of the object changes:
    no advance is visited, neither aggregate moves, and no interest is
    charged whatever [increase_interest] says. *)
Theorem payment_equal_to_interest_payable
    (self : AdvanceCalculator) (current_event : Event) (increase_interest : bool) :
  Dec.gtb (interest_payable_balance self) (D 0) = true ->
  Dec.eqb (amount current_event) (interest_payable_balance self) = true ->
  let self' :=
    object_after self
      (_execute_payment_flow self current_event increase_interest) in
  _execute_payment_flow self current_event increase_interest = Return tt self'
  /\ interest_paid self' = interest_paid self + amount current_event
  /\ interest_payable_balance self' = interest_payable_balance self
  /\ advances self' = advances self
  /\ advance_balance self' = advance_balance self
  /\ payments_for_future self' = payments_for_future self
  /\ self' = set_interest_paid (interest_paid self + amount current_event) self.
Proof.
  intros Hpos Heq. unfold _execute_payment_flow.
  rewrite Hpos, test_eq, Heq. cbn. repeat split; reflexivity.
Qed.

(** C5. The waterfall raises exactly when interest payable is strictly
    negative on entry: it then raises [ValueError] and leaves the object as
    it found it; with interest payable not negative it returns normally. *)
Theorem payment_flow_raises_iff_negative_interest
    (self : AdvanceCalculator) (current_event : Event) (increase_interest : bool) :
  (Dec.ltb (interest_payable_balance self) (D 0) = true ->
   _execute_payment_flow self current_event increase_interest
   = Raise ValueError self)
  /\ (Dec.ltb (interest_payable_balance self) (D 0) = false ->
      exists self',
        _execute_payment_flow self current_event increase_interest
        = Return tt self').
Proof.
  unfold _execute_payment_flow. split.
  - intros Hneg.
    rewrite (ltb_not_gtb _ _ Hneg), (ltb_not_eqb _ _ Hneg), Hneg. reflexivity.
  - intros Hnn. rewrite Hnn.
    repeat match goal with
           | |- context [if ?b then _ else _] => destruct b
           end; eexists; reflexivity.
Qed.

(** ** FIFO payoff *)

(** Paid advances at the head of the mapping are skipped untouched. *)
Lemma scan_advances_skip_paid (self : AdvanceCalculator)
    (paid items : ordered_dict) (r : Decimal) (u : bool) :
  all_paid paid = true ->
  scan_advances self (paid ++ items) r u
  = let '(items', self', r', u') := scan_advances self items r u in
    (paid ++ items', self', r', u').
Proof.
  induction paid as [|[k a] paid IH]; intros Hp.
  - cbn [app]. destruct (scan_advances self items r u) as [[[? ?] ?] ?].
    reflexivity.
  - cbn in Hp. apply andb_prop in Hp as [Ha Hp].
    cbn [app scan_advances]. rewrite Ha, (IH Hp).
    destruct (scan_advances self items r u) as [[[? ?] ?] ?]. reflexivity.
Qed.

(** An unpaid advance whose balance is below the amount to apply is retired
    and the scan goes on with the excess, now flagged as coming from an
    overpaid advance. *)
Lemma scan_advances_overpay (self : AdvanceCalculator) (k : Z) (a : Advance)
    (rest : ordered_dict) (r : Decimal) (u : bool) :
  is_paid a = false ->
  Dec.ltb (Current_Balance a) r = true ->
  scan_advances self ((k, a) :: rest) r u
  = let excess := Dec.abs (Current_Balance a - r) in
    let '(rest', self', r', u') :=
      scan_advances
        (set_payments_for_future excess
           (set_advance_balance (advance_balance self - Current_Balance a) self))
        rest excess true in
    ((k, set_is_paid true (set_Current_Balance (D 0) a)) :: rest', self', r', u').
Proof.
  intros Hu Hlt. cbn [scan_advances]. rewrite Hu.
  rewrite test_eq, test_gt, test_lt.
  rewrite (ltb_not_eqb _ _ Hlt), (ltb_not_gtb _ _ Hlt), Hlt.
  reflexivity.
Qed.

(** An unpaid advance whose balance exceeds the amount to apply absorbs it,
    and the scan stops there. *)
Lemma scan_advances_partial (self : AdvanceCalculator) (k : Z) (a : Advance)
    (rest : ordered_dict) (r : Decimal) (u : bool) :
  is_paid a = false ->
  Dec.gtb (Current_Balance a) r = true ->
  scan_advances self ((k, a) :: rest) r u
  = ((k, set_Current_Balance (Current_Balance a - r) a) :: rest,
     (if u
      then set_payments_for_future (D 0)
             (set_advance_balance (advance_balance self - r) self)
      else set_advance_balance (advance_balance self - r) self),
     D 0, u).
Proof.
  intros Hu Hgt. cbn [scan_advances]. rewrite Hu.
  rewrite test_eq, test_gt.
  rewrite (gtb_not_eqb _ _ Hgt), Hgt. reflexivity.
Qed.

(** An unpaid advance whose balance equals the amount to apply is retired
    and the scan stops there: nothing behind it is visited. *)
Lemma scan_advances_exact (self : AdvanceCalculator) (k : Z) (a : Advance)
    (rest : ordered_dict) (r : Decimal) (u : bool) :
  is_paid a = false ->
  Dec.eqb (Current_Balance a) r = true ->
  scan_advances self ((k, a) :: rest) r u
  = ((k, set_is_paid true (set_Current_Balance (D 0) a)) :: rest,
     set_advance_balance (advance_balance self - r) self, D 0, u).
Proof.
  intros Hu He. cbn [scan_advances]. rewrite Hu, test_eq, He. reflexivity.
Qed.

(** C4. Two unpaid advances A (older) and B (newer), possibly separated by
    advances already paid, and an amount that overpays A with an excess below
    B's balance: the payoff marks A paid with balance zero, goes on to B,
    lowers B's balance by exactly the excess and leaves B unpaid; later
    advances are untouched, the aggregate balance loses A's balance and then
    the excess, and no future credit is left. *)
Theorem fifo_overpay_cascade
    (self : AdvanceCalculator) (before between after : ordered_dict)
    (ka kb : Z) (A B : Advance) (remaining_amount : Decimal) :
  advances self = before ++ (ka, A) :: between ++ (kb, B) :: after ->
  all_paid before = true ->
  all_paid between = true ->
  is_paid A = false ->
  is_paid B = false ->
  Dec.ltb (Current_Balance A) remaining_amount = true ->
  let excess := Dec.abs (Current_Balance A - remaining_amount) in
  Dec.ltb excess (Current_Balance B) = true ->
  let self' := _decrease_oldest_active_balance self remaining_amount in
  advances self'
  = before ++ (ka, set_is_paid true (set_Current_Balance (D 0) A))
      :: between ++ (kb, set_Current_Balance (Current_Balance B - excess) B)
      :: after
  /\ advance_balance self'
     = advance_balance self - Current_Balance A - excess
  /\ payments_for_future self' = D 0.
Proof.
  intros Hadv Hbefore Hbetween HA HB Hover excess Hpart self'.
  subst self'. unfold _decrease_oldest_active_balance.
  rewrite Hadv, (scan_advances_skip_paid _ _ _ _ _ Hbefore).
  rewrite (scan_advances_overpay _ _ _ _ _ _ HA Hover). fold excess. cbv zeta.
  rewrite (scan_advances_skip_paid _ _ _ _ _ Hbetween).
  rewrite <- gtb_ltb_swap in Hpart.
  rewrite (scan_advances_partial _ _ _ _ _ _ HB Hpart).
  cbn [set_advances advances set_payments_for_future set_advance_balance
       advance_balance payments_for_future].
  replace (Dec.gtb (D 0) (D 0)) with false by reflexivity.
  cbn [andb]. cbn. repeat split; reflexivity.
Qed.

(** ** The event-pair transition *)

(** C10. The current event is an advance dated differently from the next
    event.  After the advance is created: if the event carries
    [is_same_date] and the aggregate advance balance is strictly negative,
    its magnitude is added to payments-for-future and the balance is set to
    zero before interest accrues (so the accrual is taken on a zero balance);
    if the flag is not set, the balance and the credit are those left by the
    creation, negative balance included. *)
Theorem advance_closing_same_date_run
    (self : AdvanceCalculator) (e next_e : Event) :
  type e = EVENT_ADVANCE_TYPE ->
  Datetime.eqb (date e) (date next_e) = false ->
  let created := _create_advance (snapshot self) e true in
  let days := get_date_difference_days (date next_e) (date e) in
  exists self',
    process_event self e next_e = Return next_e self'
    /\ (is_same_date e = true ->
        Dec.ltb (advance_balance created) (D 0) = true ->
        advance_balance self' = D 0
        /\ payments_for_future self'
           = payments_for_future created + Dec.abs (advance_balance created)
        /\ interest_payable_balance self'
           = interest_payable_balance created
             + D days * (LOAN_INTEREST_RATE * D 0))
    /\ (is_same_date e = false ->
        advance_balance self' = advance_balance created
        /\ payments_for_future self' = payments_for_future created
        /\ interest_payable_balance self'
           = interest_payable_balance created
             + D days * (LOAN_INTEREST_RATE * advance_balance created)).
Proof.
  intros Hty Hdate created days.
  unfold process_event. rewrite Hdate, Hty.
  replace (String.eqb EVENT_ADVANCE_TYPE EVENT_ADVANCE_TYPE) with true
    by reflexivity.
  fold created. cbn [bind].
  eexists. split; [reflexivity|]. split.
  - intros Hflag Hneg. rewrite Hflag, Hneg. repeat split; reflexivity.
  - intros Hflag. rewrite Hflag. repeat split; reflexivity.
Qed.

(** ** Stored advance records *)

Lemma paid_zero_ok (a : Advance) :
  paid_has_zero_balance (set_is_paid true (set_Current_Balance (D 0) a)).
Proof. split; reflexivity. Qed.

Lemma od_set_ok (k : Z) (a : Advance) (d : ordered_dict) :
  paid_has_zero_balance a ->
  Forall (fun kv => paid_has_zero_balance (snd kv)) d ->
  Forall (fun kv => paid_has_zero_balance (snd kv)) (od_set k a d).
Proof.
  intros Ha Hd. induction Hd as [|[k' a'] rest Hx Hrest IH]; cbn [od_set].
  - constructor; [exact Ha | constructor].
  - destruct (k' =? k)%Z; constructor; auto.
Qed.

Lemma scan_advances_ok (items : ordered_dict) :
  Forall (fun kv => paid_has_zero_balance (snd kv)) items ->
  forall (self : AdvanceCalculator) (r : Decimal) (u : bool),
    Forall (fun kv => paid_has_zero_balance (snd kv))
      (fst (fst (fst (scan_advances self items r u)))).
Proof.
  induction 1 as [|[k a] rest Ha Hrest IH]; intros self r u;
    cbn [scan_advances]; [constructor|].
  destruct (is_paid a) eqn:Hpaid.
  - specialize (IH self r u).
    destruct (scan_advances self rest r u) as [[[? ?] ?] ?].
    constructor; assumption.
  - destruct (Dec.eqb (Current_Balance a - r) (D 0)) eqn:He.
    { constructor; [apply paid_zero_ok | assumption]. }
    destruct (Dec.gtb (Current_Balance a - r) (D 0)) eqn:Hg.
    { constructor; [|assumption]. split; cbn.
      - apply (gtb_not_ltb _ _ Hg).
      - intros Hp. congruence. }
    destruct (Dec.ltb (Current_Balance a - r) (D 0)) eqn:Hl.
    + match goal with
      | |- context [scan_advances ?s rest ?r' ?u'] =>
          specialize (IH s r' u'); destruct (scan_advances s rest r' u')
            as [[[? ?] ?] ?]
      end.
      constructor; [apply paid_zero_ok | assumption].
    + specialize (IH self r u).
      destruct (scan_advances self rest r u) as [[[? ?] ?] ?].
      constructor; assumption.
Qed.

Lemma decrease_ok (self : AdvanceCalculator) (r : Decimal) :
  records_ok self -> records_ok (_decrease_oldest_active_balance self r).
Proof.
  intros H. unfold _decrease_oldest_active_balance.
  pose proof (scan_advances_ok _ H self r false) as Hs.
  destruct (scan_advances self (advances self) r false) as [[[items s] r'] u].
  cbn in Hs.
  match goal with |- context [if ?b then _ else _] => destruct b end;
    exact Hs.
Qed.

Lemma reconcile_advances (self : AdvanceCalculator) :
  advances (reconcile self) = advances self.
Proof.
  unfold reconcile.
  repeat match goal with
         | |- context [if ?b then _ else _] => destruct b
         end; reflexivity.
Qed.

Lemma payment_flow_ok (self : AdvanceCalculator) (e : Event) (inc : bool) :
  records_ok self ->
  records_ok (object_after self (_execute_payment_flow self e inc)).
Proof.
  intros H. unfold _execute_payment_flow.
  pose proof (fun s => decrease_ok s (amount e - interest_payable_balance self))
    as Hd.
  repeat match goal with
         | |- context [if ?b then _ else _] => destruct b
         end; cbn [object_after]; try exact H;
    try (apply decrease_ok; exact H);
    unfold records_ok;
    cbn [advances set_interest_payable_balance set_interest_paid];
    try rewrite reconcile_advances; try (apply Hd; exact H).
Qed.

Lemma create_advance_ok (self : AdvanceCalculator) (e : Event) (ub : bool) :
  records_ok self -> amount_ok e -> records_ok (_create_advance self e ub).
Proof.
  intros H He. unfold _create_advance.
  assert (Hnew : forall (s : AdvanceCalculator) (x : Decimal),
             advances s = advances self -> Dec.ltb x (D 0) = false ->
             records_ok
               (let self3 :=
                  if is_truncated e then s
                  else set_advances
                         (od_set (advance_count s)
                            (mkAdvance (date e) (amount e) x false)
                            (advances s)) s in
                if ub
                then set_advance_balance (advance_balance self3 + x) self3
                else self3)).
  { intros s x Hs Hx. cbv zeta. unfold records_ok.
    destruct ub, (is_truncated e);
      cbn [advances set_advance_balance set_advances]; rewrite ?Hs;
      try exact H; apply od_set_ok; try exact H; split; cbn; congruence. }
  cbv zeta.
  destruct (Dec.gtb (payments_for_future _) (D 0)).
  - destruct (Dec.gtb (amount e - _) (D 0)) eqn:Hg.
    { apply Hnew; [reflexivity | apply (gtb_not_ltb _ _ Hg)]. }
    destruct (Dec.eqb (amount e - _) (D 0)).
    { apply Hnew; reflexivity. }
    destruct (Dec.ltb (amount e - _) (D 0)).
    { apply Hnew; reflexivity. }
    apply Hnew; [reflexivity | exact He].
  - apply Hnew; [reflexivity | exact He].
Qed.

Lemma records_ok_ext (s s' : AdvanceCalculator) :
  advances s' = advances s -> records_ok s -> records_ok s'.
Proof. unfold records_ok. intros ->. exact (fun H => H). Qed.

Lemma process_event_ok (self : AdvanceCalculator) (e next_e : Event) :
  records_ok self -> amount_ok e ->
  records_ok (object_after self (process_event self e next_e)).
Proof.
  intros H He. unfold process_event.
  assert (Hsnap : records_ok (snapshot self))
    by (apply (records_ok_ext self); [reflexivity | exact H]).
  pose proof (create_advance_ok _ e true Hsnap He) as Hc.
  pose proof (payment_flow_ok _ e false Hsnap) as Hp.
  destruct (Datetime.eqb (date e) (date next_e));
    destruct (String.eqb (type e) EVENT_ADVANCE_TYPE);
    try destruct (String.eqb (type e) EVENT_PAYMENT_TYPE);
    try destruct (_execute_payment_flow (snapshot self) e false)
      as [[] s|x s|];
    cbn [bind object_after] in *;
    try exact H;
    try (eapply records_ok_ext; [|exact Hc]; reflexivity);
    try (eapply records_ok_ext; [|exact Hp]; reflexivity);
    try (eapply records_ok_ext; [|exact Hsnap]; reflexivity).
  all: eapply records_ok_ext; [|exact Hc].
  all: destruct (is_same_date e); [destruct (Dec.ltb _ _)|]; reflexivity.
Qed.

Lemma py_index_In {A : Type} (l : list A) (i : Z) (x : A) :
  py_index l i = Some x -> In x l.
Proof.
  unfold py_index.
  destruct (i <? 0)%Z; [destruct (i + _ <? 0)%Z; [discriminate|]|];
    apply nth_error_In.
Qed.

Lemma Event_at_amount_ok (events : list event_tuple) (i : Z) (e : Event) :
  Forall (fun t => amount_ok (Event_of_tuple t)) events ->
  Event_at events i = Some e -> amount_ok e.
Proof.
  intros Hall. unfold Event_at.
  destruct (py_index events i) as [t|] eqn:Hi; [|discriminate].
  cbn. intros [= <-].
  rewrite Forall_forall in Hall. apply Hall. exact (py_index_In _ _ _ Hi).
Qed.

(** Whatever a step leaves behind keeps the records in order; [other] is
    the object of a loop cut short. *)
Lemma main_loop_ok (events : list event_tuple) (end_date : Datetime.date)
    (total_events : Z) (other : AdvanceCalculator) :
  Forall (fun t => amount_ok (Event_of_tuple t)) events ->
  records_ok other ->
  forall (fuel : nat) (self : AdvanceCalculator) (v : locals),
    records_ok self ->
    records_ok
      (object_after other (main_loop fuel events end_date total_events self v)).
Proof.
  intros Hall Hother. induction fuel as [|fuel IH]; intros self v H;
    cbn [main_loop];
    destruct ((event_count v <? total_events)%Z
              && negb (getattr_is_last (next_event v)));
    cbn [object_after]; try assumption.
  destruct (Event_at events (event_count v)) as [e|] eqn:He;
    cbn [object_after]; [|assumption].
  destruct (Datetime.gtb (date e) end_date); cbn [object_after]; [assumption|].
  destruct (Event_at events (event_count v + 1)) as [ne|] eqn:Hne;
    cbn [object_after]; [|assumption].
  assert (Hamt : forall b : bool,
             amount_ok (if b then set_is_same_date true e else e)).
  { intros []; apply (Event_at_amount_ok _ _ _ Hall He). }
  assert (Hstep : forall ne' : Event,
             records_ok
               (object_after other
                  (do (ne2, self0) <-
                     process_event self
                       (if getattr_is_same_date (next_event v)
                        then set_is_same_date true e else e) ne';
                   main_loop fuel events end_date total_events self0
                     (mkLocals (event_count v + 1)%Z (event_count v + 1)%Z
                        (Some (if getattr_is_same_date (next_event v)
                               then set_is_same_date true e else e))
                        (Some ne2) false)))).
  { intros ne'.
    pose proof (process_event_ok self _ ne' H
                  (Hamt (getattr_is_same_date (next_event v)))) as Hp.
    destruct (process_event self _ ne') as [ne'' s|x s|];
      cbn [bind object_after] in *; try assumption.
    apply IH. exact Hp. }
  destruct (event_count v + 1 =? total_events)%Z; [apply Hstep|].
  destruct (Datetime.ltb _ end_date && Datetime.leb end_date (date ne));
    [exact H | apply Hstep].
Qed.

Lemma lookahead_loop_ok (events : list event_tuple) (end_date : Datetime.date)
    (other : AdvanceCalculator) :
  Forall (fun t => amount_ok (Event_of_tuple t)) events ->
  records_ok other ->
  forall (fuel : nat) (self : AdvanceCalculator) (i j k : Z) (e ne : Event),
    records_ok self -> amount_ok e ->
    records_ok
      (object_after other
         (lookahead_loop fuel events end_date self i j k e ne)).
Proof.
  intros Hall Hother. induction fuel as [|fuel IH]; intros self i j k e ne H He;
    cbn [lookahead_loop object_after]; [assumption|].
  assert (Hp : forall ne' : Event,
             records_ok (object_after other (process_event self e ne'))).
  { intros ne'. pose proof (process_event_ok self e ne' H He) as Hp.
    destruct (process_event self e ne'); cbn [object_after] in *; assumption. }
  destruct (_get_future_event events k) as [fe|]; [|apply Hp].
  destruct (negb (Datetime.eqb (date ne) (date fe))); [apply Hp|].
  pose proof (process_event_ok self e (set_is_last false ne) H He) as Hq.
  destruct (process_event self e (set_is_last false ne)) as [ne' s|x s|];
    cbn [bind object_after] in *; try assumption.
  destruct (Event_at events (i + 1)) as [e'|] eqn:He';
    cbn [object_after]; [|assumption].
  destruct (Event_at events (j + 1)) as [ne''|] eqn:Hne;
    cbn [object_after]; [|assumption].
  apply IH; [exact Hq | exact (Event_at_amount_ok _ _ _ Hall He')].
Qed.

(** [process_event] touches only the [is_same_date] flag of its second
    argument. *)
Lemma process_event_next_amount (self self' : AdvanceCalculator)
    (e next_e next_e' : Event) :
  process_event self e next_e = Return next_e' self' ->
  amount next_e' = amount next_e.
Proof.
  unfold process_event.
  destruct (Datetime.eqb (date e) (date next_e));
    destruct (String.eqb (type e) EVENT_ADVANCE_TYPE);
    try destruct (String.eqb (type e) EVENT_PAYMENT_TYPE);
    try destruct (_execute_payment_flow (snapshot self) e false)
      as [[] s|x s|];
    cbn [bind]; intros [= <- _]; reflexivity.
Qed.

Lemma main_loop_fell (events : list event_tuple) (end_date : Datetime.date)
    (total_events : Z) :
  Forall (fun t => amount_ok (Event_of_tuple t)) events ->
  forall (fuel : nat) (self self' : AdvanceCalculator) (v v' : locals),
    opt_amount_ok (event v) -> opt_amount_ok (next_event v) ->
    main_loop fuel events end_date total_events self v = Return (Fell v') self' ->
    opt_amount_ok (event v') /\ opt_amount_ok (next_event v').
Proof.
  intros Hall. induction fuel as [|fuel IH]; intros self self' v v' Hev Hnx;
    cbn [main_loop];
    destruct ((event_count v <? total_events)%Z
              && negb (getattr_is_last (next_event v)));
    try discriminate; try (intros [= <- _]; split; assumption).
  destruct (Event_at events (event_count v)) as [e|] eqn:He; [|discriminate].
  destruct (Datetime.gtb (date e) end_date); [discriminate|].
  destruct (Event_at events (event_count v + 1)) as [ne|] eqn:Hne;
    [|discriminate].
  pose proof (Event_at_amount_ok _ _ _ Hall He) as Hae.
  pose proof (Event_at_amount_ok _ _ _ Hall Hne) as Hane.
  set (e' := if getattr_is_same_date (next_event v)
             then set_is_same_date true e else e).
  assert (Hae' : amount_ok e') by (unfold e'; destruct (getattr_is_same_date _); exact Hae).
  assert (Hstep : forall ne0 : Event, amount_ok ne0 ->
             (do (ne2, self0) <- process_event self e' ne0;
              main_loop fuel events end_date total_events self0
                (mkLocals (event_count v + 1)%Z (event_count v + 1)%Z
                   (Some e') (Some ne2) false))
             = Return (Fell v') self' ->
             opt_amount_ok (event v') /\ opt_amount_ok (next_event v')).
  { intros ne0 Hne0.
    destruct (process_event self e' ne0) as [ne2 s|x s|] eqn:Hp;
      cbn [bind]; try discriminate.
    apply IH; cbn [event next_event opt_amount_ok]; [exact Hae'|].
    unfold amount_ok. rewrite (process_event_next_amount _ _ _ _ _ Hp).
    exact Hne0. }
  cbv zeta.
  destruct (event_count v + 1 =? total_events)%Z; [apply Hstep; exact Hane|].
  destruct (Datetime.ltb _ end_date && Datetime.leb end_date (date ne));
    [|apply Hstep; exact Hane].
  intros [= <- _]. cbn [event next_event opt_amount_ok]. split; assumption.
Qed.

Lemma lookahead_loop_amount (events : list event_tuple)
    (end_date : Datetime.date) :
  Forall (fun t => amount_ok (Event_of_tuple t)) events ->
  forall (fuel : nat) (self self' : AdvanceCalculator) (i j k : Z)
         (e ne ne' : Event),
    amount_ok ne ->
    lookahead_loop fuel events end_date self i j k e ne = Return ne' self' ->
    amount_ok ne'.
Proof.
  intros Hall. induction fuel as [|fuel IH];
    intros self self' i j k e ne ne' Hne; cbn [lookahead_loop];
    [discriminate|].
  destruct (_get_future_event events k) as [fe|].
  - destruct (negb (Datetime.eqb (date ne) (date fe))).
    + intros Hp. unfold amount_ok.
      rewrite (process_event_next_amount _ _ _ _ _ Hp). exact Hne.
    + destruct (process_event self e (set_is_last false ne)) as [ne2 s|x s|];
        cbn [bind]; try discriminate.
      destruct (Event_at events (i + 1)) as [e'|]; [|discriminate].
      destruct (Event_at events (j + 1)) as [ne3|] eqn:H3; [|discriminate].
      apply IH. exact (Event_at_amount_ok _ _ _ Hall H3).
  - intros Hp. unfold amount_ok.
    rewrite (process_event_next_amount _ _ _ _ _ Hp). exact Hne.
Qed.

Lemma finalize_ok (self : AdvanceCalculator) (end_date : Datetime.date)
    (next_e : option Event) :
  records_ok self -> opt_amount_ok next_e ->
  records_ok (object_after self (finalize self end_date next_e)).
Proof.
  intros H Hne. unfold finalize. destruct next_e as [le|]; [|exact H].
  cbn in Hne.
  pose proof (create_advance_ok self le true H Hne) as Hc.
  pose proof (payment_flow_ok self le false H) as Hp.
  destruct (Datetime.eqb (date le) end_date);
    [|destruct (Datetime.gtb end_date (date le))];
    destruct (String.eqb (type le) EVENT_ADVANCE_TYPE);
    try destruct (String.eqb (type le) EVENT_PAYMENT_TYPE);
    try destruct (_execute_payment_flow self le false) as [[] s|x s|];
    cbn [bind object_after] in *; assumption.
Qed.

Lemma get_advance_statistics_ok (self : AdvanceCalculator)
    (events : list event_tuple) (end_date : Datetime.date) :
  records_ok self ->
  Forall (fun t => amount_ok (Event_of_tuple t)) events ->
  records_ok (object_after self (get_advance_statistics self events end_date)).
Proof.
  intros H Hall. unfold get_advance_statistics.
  set (total := (Z.of_nat (List.length events) - 1)%Z).
  set (fuel := S (List.length events)).
  set (v0 := fresh_locals).
  pose proof (main_loop_ok events end_date total self Hall H fuel self v0 H)
    as Hmain.
  pose proof (main_loop_fell events end_date total Hall fuel self) as Hfell.
  destruct (main_loop fuel events end_date total self v0)
    as [[res|v] s|x s|] eqn:Hloop; cbn [bind object_after] in *;
    try assumption.
  destruct (Hfell s v0 v I I Hloop) as [Hev Hnx].
  assert (Hfin : forall (s' : AdvanceCalculator) (o : option Event),
             records_ok s' -> opt_amount_ok o ->
             records_ok (object_after self (finalize s' end_date o))).
  { intros s' o Hs' Ho. pose proof (finalize_ok s' end_date o Hs' Ho) as Hf.
    destruct (finalize s' end_date o); cbn [object_after] in *; assumption. }
  destruct (is_end_date_detected v); [|cbn [bind]; apply Hfin; assumption].
  destruct (event v) as [e|]; [|exact Hmain].
  destruct (next_event v) as [ne|]; [|exact Hmain].
  cbn [opt_amount_ok] in Hev, Hnx.
  destruct (Datetime.eqb end_date (date ne)).
  - pose proof (lookahead_loop_ok events end_date self Hall H fuel s
                  (event_count v) (next_event_count v) (event_count v + 2)%Z
                  e ne Hmain Hev) as Hl.
    pose proof (lookahead_loop_amount events end_date Hall fuel s) as Hla.
    destruct (lookahead_loop fuel events end_date s (event_count v)
                (next_event_count v) (event_count v + 2)%Z e ne)
      as [ne' s'|x s'|] eqn:Hlook; cbn [bind object_after] in *;
      try assumption.
    apply Hfin; [exact Hl|]. exact (Hla _ _ _ _ _ _ _ Hnx Hlook).
  - set (ne0 := set_amount (D 0) (set_date end_date ne)).
    pose proof (process_event_ok s e ne0 Hmain Hev) as Hp.
    destruct (process_event s e ne0) as [ne' s'|x s'|] eqn:Hpe;
      cbn [bind object_after] in *; try assumption.
    apply Hfin; [exact Hp|].
    cbn [opt_amount_ok]. unfold amount_ok. cbn [set_state amount].
    rewrite (process_event_next_amount _ _ _ _ _ Hpe). reflexivity.
Qed.

(** C3, as the code has it.  After any sequence of operations on a fresh
    calculator (advance creation, payment processing, event transitions, a
    whole statistics run), advances being drawn for amounts that are not
    negative, every stored record has a balance that is not negative, and a
    record marked paid has balance zero.  The converse is not maintained: a
    record can hold balance zero and still be unpaid. *)
Theorem stored_advances_invariant (self : AdvanceCalculator) :
  reachable self ->
  Forall (fun kv => paid_has_zero_balance (snd kv)) (advances self).
Proof.
  induction 1 as [|self e ub _ IH He|self e inc _ IH|self e ne _ IH He
                  |self events end_date _ IH Hall].
  - constructor.
  - exact (create_advance_ok self e ub IH He).
  - exact (payment_flow_ok self e inc IH).
  - exact (process_event_ok self e ne IH He).
  - exact (get_advance_statistics_ok self events end_date IH Hall).
Qed.

Lemma prefunded_reachable : reachable prefunded_state.
Proof.
  unfold prefunded_state. apply reach_statistics; [apply reach_init|].
  repeat constructor.
Qed.

(** C3, as worded, fails: after that run the second stored record has
    balance zero and is not marked paid. *)
Lemma prefunded_advance_is_unpaid_at_zero :
  reachable prefunded_state
  /\ In (2, mkAdvance (Datetime.mkdate 2023 1 1) (D 30) (D 0) false)
       (advances prefunded_state)
  /\ ~ Forall (fun kv => balance_zero_iff_paid (snd kv))
         (advances prefunded_state).
Proof.
  split; [exact prefunded_reachable|].
  assert (Hin : In (2, mkAdvance (Datetime.mkdate 2023 1 1) (D 30) (D 0) false)
                  (advances prefunded_state)).
  { vm_compute. right. left. reflexivity. }
  split; [exact Hin|].
  intros Hall. rewrite Forall_forall in Hall.
  destruct (Hall _ Hin) as [_ [Hpaid _]].
  specialize (Hpaid eq_refl). discriminate Hpaid.
Qed.

(** The invariant at the object reached by that run. *)
Lemma stored_advances_invariant_witness :
  Forall (fun kv => paid_has_zero_balance (snd kv)) (advances prefunded_state).
Proof.
  apply stored_advances_invariant.
  unfold prefunded_state. apply reach_statistics; [apply reach_init|].
  repeat constructor.
Defined.

(** ** The driver on short event lists *)

(** C9. With at most one event the first loop's condition is false at once:
    the body never runs, [next_event] is still [None], and the function
    raises at [last_event.date] instead of returning; the object is as it
    was. *)
Theorem statistics_raises_below_two_events
    (self : AdvanceCalculator) (events : list event_tuple)
    (end_date : Datetime.date) :
  (List.length events <= 1)%nat ->
  main_loop (S (List.length events)) events end_date
    (Z.of_nat (List.length events) - 1) self fresh_locals
  = Return (Fell fresh_locals) self
  /\ next_event fresh_locals = None
  /\ get_advance_statistics self events end_date = Raise AttributeError self.
Proof.
  intros Hlen.
  destruct events as [|t [|t' rest]]; cbn in Hlen; try lia;
    repeat split; reflexivity.
Qed.

(** The one-event list of the single-advance scenario. *)
Lemma statistics_raises_below_two_events_witness :
  get_advance_statistics init
    [(1, EVENT_ADVANCE_TYPE, AmtInt 1000, Datetime.mkdate 2023 1 1)]
    (Datetime.mkdate 2023 1 11)
  = Raise AttributeError init.
Proof.
  apply (statistics_raises_below_two_events init
           [(1, EVENT_ADVANCE_TYPE, AmtInt 1000, Datetime.mkdate 2023 1 1)]
           (Datetime.mkdate 2023 1 11)).
  simpl. lia.
Defined.

(** X12. With two events or more, a first event dated after the end date
    makes the function return four zeros on its first iteration, the object
    untouched. *)
Lemma statistics_before_first_event
    (self : AdvanceCalculator) (t t' : event_tuple) (rest : list event_tuple)
    (end_date : Datetime.date) :
  Datetime.gtb (date (Event_of_tuple t)) end_date = true ->
  get_advance_statistics self (t :: t' :: rest) end_date
  = Return (D 0, D 0, D 0, D 0) self.
Proof.
  intros Hlate. unfold get_advance_statistics.
  cbn [List.length main_loop fresh_locals event_count next_event
       getattr_is_last negb andb].
  replace (0 <? Z.of_nat (S (S (List.length rest))) - 1)%Z with true
    by (symmetry; apply Z.ltb_lt; lia).
  cbn [andb Event_at py_index option_map nth_error Z.to_nat Z.ltb Z.compare].
  change (Z.to_nat 0) with O. cbn [nth_error option_map].
  rewrite Hlate. reflexivity.
Qed.

(** A run with two events: an advance of 1000 and, five days later, a
    payment of 500; the end date is five days after the payment.  Five days
    of interest are paid, the rest of the payment lowers the advance, and six
    days of interest on the new balance are payable. *)
Example advance_then_payment_run :
  exists self',
    get_advance_statistics init
      [ (1, EVENT_ADVANCE_TYPE, AmtInt 1000, Datetime.mkdate 2023 1 1);
        (2, EVENT_PAYMENT_TYPE, AmtInt 500, Datetime.mkdate 2023 1 6) ]
      (Datetime.mkdate 2023 1 11)
    = Return (Dec.mkD 5017499999999999999822190844 (-25),
              Dec.mkD 1053674999999999989256770777 (-27),
              Dec.mkD 1749999999999999982219084371 (-27),
              D 0) self'.
Proof. eexists. by_evaluation. Qed.

(** C7 at a list of one event dated after the end date: the date test sits
    inside the loop body, which does not run, so the call raises instead of
    returning four zeros. *)
Theorem single_late_event_raises :
  get_advance_statistics init
    [(1, EVENT_ADVANCE_TYPE, AmtInt 1000, Datetime.mkdate 2023 1 5)]
    (Datetime.mkdate 2023 1 1)
  = Raise AttributeError init.
Proof. vm_compute. reflexivity. Qed.

(** C8 at its own scenario: one advance of 1000 on 2023-01-01 and the end
    date 2023-01-11.  The call raises at [last_event.date]; no 4-tuple is
    returned. *)
Theorem single_advance_scenario_raises :
  get_advance_statistics init
    [(1, EVENT_ADVANCE_TYPE, AmtInt 1000, Datetime.mkdate 2023 1 1)]
    (Datetime.mkdate 2023 1 11)
  = Raise AttributeError init
  /\ get_date_difference_days (Datetime.mkdate 2023 1 11)
       (Datetime.mkdate 2023 1 1) = 10%Z.
Proof. split; vm_compute; reflexivity. Qed.

(** ** The reconciliation after the payoff *)

(** What the block does when the credit is positive and strictly below a
    positive advance balance: the difference, not the credit, is subtracted
    from the balance. *)
Lemma reconcile_smaller_credit (self : AdvanceCalculator) :
  Dec.gtb (payments_for_future self) (D 0) = true ->
  Dec.gtb (advance_balance self) (D 0) = true ->
  Dec.ltb (payments_for_future self) (advance_balance self) = true ->
  advance_balance (reconcile self)
  = advance_balance self - (advance_balance self - payments_for_future self)
  /\ payments_for_future (reconcile self) = D 0.
Proof.
  intros Hc Hb Hlt. unfold reconcile. rewrite Hc, Hb. cbn [andb].
  rewrite test_eq, test_gt, gtb_ltb_swap, Hlt.
  rewrite <- gtb_ltb_swap in Hlt. rewrite (gtb_not_eqb _ _ Hlt).
  split; reflexivity.
Qed.

(** C1 at that run.  The payment exceeds a positive interest payable; after
    the payoff the credit is 80 and the advance balance 200.  The waterfall
    leaves an advance balance of 80 (the credit), not 200 - 80 = 120, and a
    credit of zero; the statistics call returns that 80. *)
Theorem reconcile_leaves_credit_as_balance :
  (exists v,
     main_loop 7 overlap_events (Datetime.mkdate 2023 1 11) 5 init
       fresh_locals
     = Return (Fell v) overlap_entry
     /\ next_event v = Some overlap_payment
     /\ is_end_date_detected v = false)
  /\ Dec.gtb (interest_payable_balance overlap_entry) (D 0) = true
  /\ Dec.gtb (amount overlap_payment - interest_payable_balance overlap_entry)
       (D 0) = true
  /\ Dec.eqb (payments_for_future overlap_paid_off) (D 80) = true
  /\ Dec.eqb (advance_balance overlap_paid_off) (D 200) = true
  /\ (exists self',
        _execute_payment_flow overlap_entry overlap_payment false
        = Return tt self'
        /\ Dec.eqb (advance_balance self') (D 80) = true
        /\ Dec.eqb (advance_balance self')
             (advance_balance overlap_paid_off
              - payments_for_future overlap_paid_off) = false
        /\ payments_for_future self' = D 0)
  /\ (exists result self',
        get_advance_statistics init overlap_events (Datetime.mkdate 2023 1 11)
        = Return result self'
        /\ Dec.eqb (fst (fst (fst result))) (D 80) = true).
Proof.
  split.
  { eexists. repeat (apply conj; [by_evaluation|]). by_evaluation. }
  repeat (apply conj; [by_evaluation|]).
  split.
  - eexists. repeat (apply conj; [by_evaluation|]). by_evaluation.
  - eexists. eexists. apply conj; by_evaluation.
Qed.

(** ** Where the numbers come from *)

(** The float behind the rate is the binary64 value nearest to 35/100000:
    a 53-bit significand at exponent -64, within half a unit in the last
    place of the literal. *)
Lemma rate_float_is_nearest :
  let f := Float.of_ratio 35 100000 in
  (2 ^ 52 <= Float.fnum f < 2 ^ 53)%Z
  /\ Float.fexp f = (-64)%Z
  /\ (2 * Z.abs (Float.fnum f * 100000 - 35 * 2 ^ 64) < 100000)%Z.
Proof. vm_compute. repeat split; try reflexivity; discriminate. Qed.

(** C6 on the code.  The rate is built from a float literal, so it is the
    decimal expansion of the binary64 value nearest to 0.00035 and differs
    from 0.00035; the daily interest on a balance of 1000 is that rate's
    product rounded to 28 digits, neither 0.35 nor the exact product; and an
    amount read by [csv_events_to_list_tuple] reaches [Event] as a float, so
    the text 0.1 becomes a Decimal other than 0.1. *)
Theorem rate_and_amounts_pass_through_float :
  LOAN_INTEREST_RATE
  = Dec.mkD 3499999999999999964438168742475454564555548131465911865234375 (-64)
  /\ Dec.eqb LOAN_INTEREST_RATE (Dec.mkD 35 (-5)) = false
  /\ daily_interest (set_advance_balance (D 1000) init)
     = Dec.mkD 3499999999999999964438168742 (-28)
  /\ Dec.eqb (daily_interest (set_advance_balance (D 1000) init))
       (Dec.mkD 35 (-2)) = false
  /\ Dec.eqb (daily_interest (set_advance_balance (D 1000) init))
       (Dec.mkD (Dec.coef LOAN_INTEREST_RATE * 1000)
          (Dec.expo LOAN_INTEREST_RATE)) = false
  /\ (forall ty d,
        map (fun t => amount (Event_of_tuple t))
          (csv_events_to_list_tuple [mkRow ty d (1, 10)%Z])
        = [Dec.mkD 1000000000000000055511151231257827021181583404541015625
             (-55)])
  /\ Dec.eqb
       (Dec.mkD 1000000000000000055511151231257827021181583404541015625 (-55))
       (Dec.mkD 1 (-1)) = false.
Proof.
  repeat (apply conj; [by_evaluation|]).
  by_evaluation.
Qed.

(** ** Instances *)

(** The exact payment on [accrued_state]: ten days of interest on 1000 are
    payable, and stay payable after they have been paid. *)
Lemma payment_equal_to_interest_payable_witness :
  interest_payable_balance accrued_state
  = Dec.mkD 3499999999999999964438168742 (-27)
  /\ _execute_payment_flow accrued_state exact_interest_payment true
     = Return tt
         (set_interest_paid
            (interest_paid accrued_state + amount exact_interest_payment)
            accrued_state).
Proof.
  split; [vm_compute; reflexivity|].
  destruct (payment_equal_to_interest_payable accrued_state
              exact_interest_payment true)
    as (Hret & _ & _ & _ & _ & _ & Hobj).
  - vm_compute; reflexivity.
  - vm_compute; reflexivity.
  - rewrite Hobj in Hret. exact Hret.
Defined.

(** The same payment raises on an object with interest payable of -1 and
    returns on [accrued_state]. *)
Lemma payment_flow_raises_iff_negative_interest_witness :
  _execute_payment_flow negative_interest_state exact_interest_payment true
  = Raise ValueError negative_interest_state
  /\ exists self',
       _execute_payment_flow accrued_state exact_interest_payment true
       = Return tt self'.
Proof.
  split.
  - apply (proj1 (payment_flow_raises_iff_negative_interest
                    negative_interest_state exact_interest_payment true)).
    vm_compute; reflexivity.
  - apply (proj2 (payment_flow_raises_iff_negative_interest
                    accrued_state exact_interest_payment true)).
    vm_compute; reflexivity.
Defined.

(** 150 applied to advances of 100 and 200: the first is retired, the
    second keeps 200 - 50. *)
Lemma fifo_overpay_cascade_witness :
  advances (_decrease_oldest_active_balance two_advances (D 150))
  = [ (1, mkAdvance (Datetime.mkdate 2023 1 1) (D 100) (D 0) true);
      (2, mkAdvance (Datetime.mkdate 2023 1 2) (D 200)
            (D 200 - Dec.abs (D 100 - D 150)) false) ]
  /\ advance_balance (_decrease_oldest_active_balance two_advances (D 150))
     = advance_balance two_advances - D 100 - Dec.abs (D 100 - D 150)
  /\ payments_for_future (_decrease_oldest_active_balance two_advances (D 150))
     = D 0.
Proof.
  apply (fifo_overpay_cascade two_advances [] [] []
           1 2
           (mkAdvance (Datetime.mkdate 2023 1 1) (D 100) (D 100) false)
           (mkAdvance (Datetime.mkdate 2023 1 2) (D 200) (D 200) false)
           (D 150));
    vm_compute; reflexivity.
Defined.

(** The advance of 20 on [over_retired], with the flag and without it. *)
Lemma advance_closing_same_date_run_witness :
  (exists self',
     process_event over_retired (closing_advance true) later_event
     = Return later_event self'
     /\ advance_balance self' = D 0
     /\ payments_for_future self' = D 0 + Dec.abs (D (-50) + D 20))
  /\ (exists self',
        process_event over_retired (closing_advance false) later_event
        = Return later_event self'
        /\ advance_balance self' = D (-50) + D 20
        /\ payments_for_future self' = D 0).
Proof.
  split.
  - destruct (advance_closing_same_date_run over_retired
                (closing_advance true) later_event)
      as (self' & Hret & Hset & _).
    + reflexivity.
    + vm_compute; reflexivity.
    + exists self'. split; [exact Hret|].
      destruct Hset as (Hb & Hc & _).
      * reflexivity.
      * vm_compute; reflexivity.
      * split; [exact Hb | exact Hc].
  - destruct (advance_closing_same_date_run over_retired
                (closing_advance false) later_event)
      as (self' & Hret & _ & Hunset).
    + reflexivity.
    + vm_compute; reflexivity.
    + exists self'. split; [exact Hret|].
      destruct Hunset as (Hb & Hc & _).
      * reflexivity.
      * split; [exact Hb | exact Hc].
Defined.

(** ** The loops end within their fuel *)

Lemma payment_flow_total (self : AdvanceCalculator) (e : Event) (inc : bool) :
  _execute_payment_flow self e inc <> OutOfFuel.
Proof.
  unfold _execute_payment_flow.
  repeat match goal with
         | |- context [if ?b then _ else _] => destruct b
         end; discriminate.
Qed.

Lemma process_event_total (self : AdvanceCalculator) (e next_e : Event) :
  process_event self e next_e <> OutOfFuel.
Proof.
  unfold process_event.
  pose proof (payment_flow_total (snapshot self) e false) as Hp.
  destruct (Datetime.eqb (date e) (date next_e));
    destruct (String.eqb (type e) EVENT_ADVANCE_TYPE);
    try destruct (String.eqb (type e) EVENT_PAYMENT_TYPE);
    try destruct (_execute_payment_flow (snapshot self) e false)
      as [[] s|x s|];
    cbn [bind]; try discriminate; congruence.
Qed.

Lemma main_loop_total (events : list event_tuple) (end_date : Datetime.date)
    (total_events : Z) :
  forall (fuel : nat) (self : AdvanceCalculator) (v : locals),
    (total_events - event_count v < Z.of_nat fuel)%Z ->
    main_loop fuel events end_date total_events self v <> OutOfFuel.
Proof.
  induction fuel as [|fuel IH]; intros self v Hfuel; cbn [main_loop];
    destruct (Z.ltb_spec (event_count v) total_events) as [Hlt|Hge];
    cbn [andb]; try discriminate; try lia;
    destruct (negb (getattr_is_last (next_event v))); try discriminate.
  destruct (Event_at events (event_count v)) as [e|]; [|discriminate].
  destruct (Datetime.gtb (date e) end_date); [discriminate|].
  destruct (Event_at events (event_count v + 1)) as [ne|]; [|discriminate].
  set (e' := if getattr_is_same_date (next_event v)
             then set_is_same_date true e else e).
  assert (Hstep : forall ne0 : Event,
             (do (ne2, self0) <- process_event self e' ne0;
              main_loop fuel events end_date total_events self0
                (mkLocals (event_count v + 1)%Z (event_count v + 1)%Z
                   (Some e') (Some ne2) false))
             <> OutOfFuel).
  { intros ne0. pose proof (process_event_total self e' ne0) as Hp.
    destruct (process_event self e' ne0) as [ne2 s|x s|]; cbn [bind];
      try discriminate; try congruence.
    apply IH. cbn [event_count]. lia. }
  cbv zeta.
  destruct (event_count v + 1 =? total_events)%Z; [apply Hstep|].
  destruct (Datetime.ltb _ end_date && Datetime.leb end_date (date ne));
    [discriminate | apply Hstep].
Qed.

Lemma main_loop_count (events : list event_tuple) (end_date : Datetime.date)
    (total_events : Z) :
  forall (fuel : nat) (self self' : AdvanceCalculator) (v v' : locals),
    (0 <= event_count v)%Z ->
    main_loop fuel events end_date total_events self v = Return (Fell v') self' ->
    (0 <= event_count v')%Z.
Proof.
  induction fuel as [|fuel IH]; intros self self' v v' Hv; cbn [main_loop];
    destruct ((event_count v <? total_events)%Z
              && negb (getattr_is_last (next_event v)));
    try discriminate; try (intros [= <- _]; exact Hv).
  destruct (Event_at events (event_count v)) as [e|]; [|discriminate].
  destruct (Datetime.gtb (date e) end_date); [discriminate|].
  destruct (Event_at events (event_count v + 1)) as [ne|]; [|discriminate].
  set (e' := if getattr_is_same_date (next_event v)
             then set_is_same_date true e else e).
  assert (Hstep : forall ne0 : Event,
             (do (ne2, self0) <- process_event self e' ne0;
              main_loop fuel events end_date total_events self0
                (mkLocals (event_count v + 1)%Z (event_count v + 1)%Z
                   (Some e') (Some ne2) false))
             = Return (Fell v') self' ->
             (0 <= event_count v')%Z).
  { intros ne0.
    destruct (process_event self e' ne0) as [ne2 s|x s|]; cbn [bind];
      try discriminate.
    apply IH. cbn [event_count]. lia. }
  cbv zeta.
  destruct (event_count v + 1 =? total_events)%Z; [apply Hstep|].
  destruct (Datetime.ltb _ end_date && Datetime.leb end_date (date ne));
    [|apply Hstep].
  intros [= <- _]. exact Hv.
Qed.

Lemma py_index_in_range {A : Type} (l : list A) (i : Z) (x : A) :
  (0 <= i)%Z -> py_index l i = Some x -> (i < Z.of_nat (List.length l))%Z.
Proof.
  intros Hi. unfold py_index.
  destruct (Z.ltb_spec i 0); [lia|]. intros Hn.
  assert (Hlt : (Z.to_nat i < List.length l)%nat)
    by (apply nth_error_Some; congruence).
  lia.
Qed.

Lemma lookahead_loop_total (events : list event_tuple)
    (end_date : Datetime.date) :
  forall (fuel : nat) (self : AdvanceCalculator) (i j k : Z) (e ne : Event),
    (0 <= k)%Z -> (1 <= fuel)%nat ->
    (Z.of_nat (List.length events) - k < Z.of_nat fuel)%Z ->
    lookahead_loop fuel events end_date self i j k e ne <> OutOfFuel.
Proof.
  induction fuel as [|fuel IH]; intros self i j k e ne Hk Hone Hfuel; [lia|].
  cbn [lookahead_loop]. unfold _get_future_event, Event_at.
  destruct (py_index events k) as [t|] eqn:Hidx; cbn [option_map];
    [|apply process_event_total].
  pose proof (py_index_in_range _ _ _ Hk Hidx) as Hrange.
  destruct (negb (Datetime.eqb (date ne) (date (Event_of_tuple t))));
    [apply process_event_total|].
  pose proof (process_event_total self e (set_is_last false ne)) as Hp.
  destruct (process_event self e (set_is_last false ne)) as [ne2 s|x s|];
    cbn [bind]; try discriminate; try congruence.
  destruct (option_map Event_of_tuple (py_index events (i + 1)));
    [|discriminate].
  destruct (option_map Event_of_tuple (py_index events (j + 1)));
    [|discriminate].
  apply IH; lia.
Qed.

Lemma finalize_total (self : AdvanceCalculator) (end_date : Datetime.date)
    (next_e : option Event) :
  finalize self end_date next_e <> OutOfFuel.
Proof.
  unfold finalize. destruct next_e as [le|]; [|discriminate].
  pose proof (payment_flow_total self le false) as Hp.
  destruct (Datetime.eqb (date le) end_date);
    [|destruct (Datetime.gtb end_date (date le))];
    destruct (String.eqb (type le) EVENT_ADVANCE_TYPE);
    try destruct (String.eqb (type le) EVENT_PAYMENT_TYPE);
    try destruct (_execute_payment_flow self le false) as [[] s|x s|];
    cbn [bind]; try discriminate; congruence.
Qed.

(** Every call of [get_advance_statistics] returns or raises: the fuel given
    to its two loops is never exhausted. *)
Lemma get_advance_statistics_total (self : AdvanceCalculator)
    (events : list event_tuple) (end_date : Datetime.date) :
  get_advance_statistics self events end_date <> OutOfFuel.
Proof.
  unfold get_advance_statistics.
  set (total := (Z.of_nat (List.length events) - 1)%Z).
  set (fuel := S (List.length events)).
  set (v0 := fresh_locals).
  pose proof (main_loop_total events end_date total fuel self v0) as Hm.
  pose proof (main_loop_count events end_date total fuel self) as Hc.
  destruct (main_loop fuel events end_date total self v0)
    as [[res|v] s|x s|] eqn:Hloop; cbn [bind]; try discriminate.
  - specialize (Hc s v0 v (Z.le_refl 0) Hloop).
    destruct (is_end_date_detected v); [|cbn [bind]; apply finalize_total].
    destruct (event v) as [e|]; [|discriminate].
    destruct (next_event v) as [ne|]; [|discriminate].
    destruct (Datetime.eqb end_date (date ne)).
    + pose proof (lookahead_loop_total events end_date fuel s (event_count v)
                    (next_event_count v) (event_count v + 2)%Z e ne) as Hl.
      destruct (lookahead_loop fuel events end_date s (event_count v)
                  (next_event_count v) (event_count v + 2)%Z e ne)
        as [ne' s'|x s'|]; cbn [bind]; try discriminate.
      * apply finalize_total.
      * exfalso. apply Hl; unfold fuel; try lia; reflexivity.
    + pose proof (process_event_total s e
                    (set_amount (D 0) (set_date end_date ne))) as Hp.
      destruct (process_event s e (set_amount (D 0) (set_date end_date ne)))
        as [ne' s'|x s'|]; cbn [bind]; try discriminate; try congruence.
      apply finalize_total.
  - exfalso. apply Hm; [|reflexivity]. unfold total, fuel, v0, fresh_locals.
    cbn [event_count]. lia.
Qed.

(* ------------------------------------------------------------------ *)
(** * Further properties of the code *)

(** ** Signs of Decimal results *)

Lemma eqb_zero_coef (x : Decimal) :
  Dec.eqb x (D 0) = true <-> Dec.coef x = 0%Z.
Proof.
  unfold Dec.eqb. change (D 0) with Dec.zero. rewrite DecFacts.cmp_zero.
  destruct (Z.compare_spec (Dec.coef x) 0); split; intros; try lia;
    try reflexivity; discriminate.
Qed.

Lemma ltb_zero_coef (x : Decimal) :
  Dec.ltb x (D 0) = false <-> (0 <= Dec.coef x)%Z.
Proof.
  unfold Dec.ltb. change (D 0) with Dec.zero. rewrite DecFacts.cmp_zero.
  destruct (Z.compare_spec (Dec.coef x) 0); split; intros; try lia;
    try reflexivity; discriminate.
Qed.

Lemma gtb_zero_coef (x : Decimal) :
  Dec.gtb x (D 0) = true <-> (0 < Dec.coef x)%Z.
Proof.
  unfold Dec.gtb. change (D 0) with Dec.zero. rewrite DecFacts.cmp_zero.
  destruct (Z.compare_spec (Dec.coef x) 0); split; intros; try lia;
    try reflexivity; discriminate.
Qed.

Lemma fix_prec_coef_sign (d : Decimal) :
  ((0 <= Dec.coef d)%Z -> (0 <= Dec.coef (Dec.fix_prec d))%Z)
  /\ ((0 < Dec.coef d)%Z -> (0 < Dec.coef (Dec.fix_prec d))%Z)
  /\ (Dec.coef d = 0%Z -> Dec.coef (Dec.fix_prec d) = 0%Z).
Proof.
  pose proof (DecFacts.fix_prec_sgn d) as H.
  repeat split; intros Hd.
  - destruct (Z.sgn_spec (Dec.coef (Dec.fix_prec d))) as [[? ?]|[[? ?]|[? ?]]];
      destruct (Z.sgn_spec (Dec.coef d)) as [[? ?]|[[? ?]|[? ?]]]; lia.
  - destruct (Z.sgn_spec (Dec.coef (Dec.fix_prec d))) as [[? ?]|[[? ?]|[? ?]]];
      destruct (Z.sgn_spec (Dec.coef d)) as [[? ?]|[[? ?]|[? ?]]]; lia.
  - destruct (Z.sgn_spec (Dec.coef (Dec.fix_prec d))) as [[? ?]|[[? ?]|[? ?]]];
      destruct (Z.sgn_spec (Dec.coef d)) as [[? ?]|[[? ?]|[? ?]]]; lia.
Qed.

(** A sum of two amounts that are not negative is not negative. *)
Lemma add_nonneg (a b : Decimal) :
  Dec.ltb a (D 0) = false -> Dec.ltb b (D 0) = false ->
  Dec.ltb (a + b) (D 0) = false.
Proof.
  rewrite !ltb_zero_coef. intros Ha Hb. unfold Dec.add.
  apply (proj1 (fix_prec_coef_sign _)). cbn [Dec.coef]. unfold Dec.aligned.
  assert (0 <= 10 ^ (Dec.expo a - Z.min (Dec.expo a) (Dec.expo b)))%Z
    by (apply Z.pow_nonneg; lia).
  assert (0 <= 10 ^ (Dec.expo b - Z.min (Dec.expo b) (Dec.expo a)))%Z
    by (apply Z.pow_nonneg; lia).
  nia.
Qed.

(** The magnitude of an amount that is not zero is strictly positive. *)
Lemma abs_pos (x : Decimal) :
  Dec.eqb x (D 0) = false -> Dec.gtb (Dec.abs x) (D 0) = true.
Proof.
  intros Hx. apply gtb_zero_coef. unfold Dec.abs.
  apply (proj1 (proj2 (fix_prec_coef_sign _))). cbn [Dec.coef].
  assert (Dec.coef x <> 0%Z).
  { intros E. apply eqb_zero_coef in E. congruence. }
  lia.
Qed.

(** A product with a zero factor is zero. *)
Lemma mul_zero_r (a b : Decimal) :
  Dec.eqb b (D 0) = true -> Dec.eqb (a * b) (D 0) = true.
Proof.
  rewrite !eqb_zero_coef. intros Hb. unfold Dec.mul.
  apply (proj2 (proj2 (fix_prec_coef_sign _))). cbn [Dec.coef].
  rewrite Hb. lia.
Qed.

Lemma mul_zero_l (a b : Decimal) :
  Dec.eqb a (D 0) = true -> Dec.eqb (a * b) (D 0) = true.
Proof.
  rewrite !eqb_zero_coef. intros Ha. unfold Dec.mul.
  apply (proj2 (proj2 (fix_prec_coef_sign _))). cbn [Dec.coef].
  rewrite Ha. lia.
Qed.

(** ** What a payoff does to the mapping *)

Lemma record_kept_refl (kv : Z * Advance) : record_kept kv kv.
Proof. repeat split; reflexivity. Qed.

Lemma Forall2_record_kept_refl (d : ordered_dict) : Forall2 record_kept d d.
Proof. induction d; constructor; auto using record_kept_refl. Qed.

Lemma scan_advances_kept (items : ordered_dict) :
  forall (self : AdvanceCalculator) (r : Decimal) (u : bool),
    Forall2 record_kept items (fst (fst (fst (scan_advances self items r u)))).
Proof.
  induction items as [|[k a] rest IH]; intros self r u; cbn [scan_advances];
    [constructor|].
  destruct (is_paid a) eqn:Hpaid.
  - specialize (IH self r u).
    destruct (scan_advances self rest r u) as [[[? ?] ?] ?].
    constructor; [apply record_kept_refl | exact IH].
  - assert (Hk : forall a' : Advance,
               Date a' = Date a -> Initial_Amt a' = Initial_Amt a ->
               record_kept (k, a) (k, a')).
    { intros a' Hd Hi. repeat split; cbn; try assumption. congruence. }
    destruct (Dec.eqb (Current_Balance a - r) (D 0)).
    { constructor; [apply Hk; reflexivity | apply Forall2_record_kept_refl]. }
    destruct (Dec.gtb (Current_Balance a - r) (D 0)).
    { constructor; [apply Hk; reflexivity | apply Forall2_record_kept_refl]. }
    destruct (Dec.ltb (Current_Balance a - r) (D 0)).
    + match goal with
      | |- context [scan_advances ?s rest ?r' ?u'] =>
          specialize (IH s r' u'); destruct (scan_advances s rest r' u')
            as [[[? ?] ?] ?]
      end.
      constructor; [apply Hk; reflexivity | exact IH].
    + specialize (IH self r u).
      destruct (scan_advances self rest r u) as [[[? ?] ?] ?].
      constructor; [apply record_kept_refl | exact IH].
Qed.

Lemma decrease_kept (self : AdvanceCalculator) (r : Decimal) :
  Forall2 record_kept (advances self)
    (advances (_decrease_oldest_active_balance self r)).
Proof.
  unfold _decrease_oldest_active_balance.
  pose proof (scan_advances_kept (advances self) self r false) as Hs.
  destruct (scan_advances self (advances self) r false) as [[[items s] r'] u].
  cbn in Hs.
  match goal with |- context [if ?b then _ else _] => destruct b end;
    exact Hs.
Qed.

Lemma payment_flow_kept (self : AdvanceCalculator) (e : Event) (inc : bool) :
  Forall2 record_kept (advances self)
    (advances (object_after self (_execute_payment_flow self e inc))).
Proof.
  unfold _execute_payment_flow.
  pose proof (fun s => decrease_kept s
                (amount e - interest_payable_balance self)) as Hd.
  repeat match goal with
         | |- context [if ?b then _ else _] => destruct b
         end; cbn [object_after advances set_interest_payable_balance
                   set_interest_paid];
    try rewrite reconcile_advances;
    try apply Forall2_record_kept_refl; try apply decrease_kept.
  all: match goal with
       | |- Forall2 _ _ (advances (_decrease_oldest_active_balance ?s _)) =>
           exact (Hd s)
       end.
Qed.

(** X1. A payment never deletes, adds or reorders stored advances: after
    the payoff scan, and after the whole waterfall whether it returns or
    raises, the mapping has the same keys in the same order, every record
    keeps its origination date and requested amount, and a record that was
    already marked paid is unchanged. *)
Theorem payment_keeps_records
    (self : AdvanceCalculator) (remaining_amount : Decimal)
    (current_event : Event) (increase_interest : bool) :
  Forall2 record_kept (advances self)
    (advances (_decrease_oldest_active_balance self remaining_amount))
  /\ Forall2 record_kept (advances self)
       (advances
          (object_after self
             (_execute_payment_flow self current_event increase_interest))).
Proof.
  split; [apply decrease_kept | apply payment_flow_kept].
Qed.

Lemma scan_advances_all_paid (self : AdvanceCalculator) (items : ordered_dict)
    (r : Decimal) (u : bool) :
  all_paid items = true ->
  scan_advances self items r u = (items, self, r, u).
Proof.
  induction items as [|[k a] rest IH]; intros Hp; [reflexivity|].
  cbn in Hp. apply andb_prop in Hp as [Ha Hr].
  cbn [scan_advances]. rewrite Ha, (IH Hr). reflexivity.
Qed.

Lemma set_advances_same (s : AdvanceCalculator) : set_advances (advances s) s = s.
Proof. destruct s; reflexivity. Qed.

Lemma all_paid_forallb (items : ordered_dict) :
  forallb (fun b : bool => b) (map (fun kv => is_paid (snd kv)) items)
  = all_paid items.
Proof.
  unfold all_paid. induction items as [|kv rest IH]; [reflexivity|].
  cbn. rewrite IH. reflexivity.
Qed.

(** X2. With every stored advance already paid (or none stored), the
    payoff banks a strictly positive amount whole: it is added to
    payments-for-future and nothing else changes; an amount that is zero or
    negative changes nothing.  A payment arriving with no interest payable is
    exactly that payoff of its full amount. *)
Theorem payment_with_nothing_owed
    (self : AdvanceCalculator) (current_event : Event) (increase_interest : bool) :
  all_paid (advances self) = true ->
  Dec.eqb (interest_payable_balance self) (D 0) = true ->
  _decrease_oldest_active_balance self (amount current_event)
  = (if Dec.gtb (amount current_event) (D 0)
     then set_payments_for_future
            (payments_for_future self + amount current_event) self
     else self)
  /\ _execute_payment_flow self current_event increase_interest
     = Return tt (_decrease_oldest_active_balance self (amount current_event)).
Proof.
  intros Hpaid Hzero. split.
  - unfold _decrease_oldest_active_balance.
    rewrite (scan_advances_all_paid _ _ _ _ Hpaid).
    rewrite set_advances_same, all_paid_forallb, Hpaid.
    destruct (Dec.gtb (amount current_event) (D 0)); reflexivity.
  - unfold _execute_payment_flow.
    rewrite (eqb_not_gtb _ _ Hzero), Hzero. reflexivity.
Qed.

(** X3. An amount that does not exceed the balance of the oldest unpaid
    advance touches that advance only: it is retired at zero when the amount
    equals its balance, reduced by the amount otherwise; the advances behind
    it, the records before it and payments-for-future are unchanged, and the
    aggregate balance loses the amount. *)
Theorem payoff_within_oldest_unpaid
    (self : AdvanceCalculator) (before after : ordered_dict)
    (k : Z) (A : Advance) (remaining_amount : Decimal) :
  advances self = before ++ (k, A) :: after ->
  all_paid before = true ->
  is_paid A = false ->
  Dec.ltb (Current_Balance A) remaining_amount = false ->
  let self' := _decrease_oldest_active_balance self remaining_amount in
  advances self'
  = before
      ++ (k, if Dec.eqb (Current_Balance A) remaining_amount
             then set_is_paid true (set_Current_Balance (D 0) A)
             else set_Current_Balance (Current_Balance A - remaining_amount) A)
      :: after
  /\ advance_balance self' = advance_balance self - remaining_amount
  /\ payments_for_future self' = payments_for_future self.
Proof.
  intros Hadv Hbefore HA Hle self'. subst self'.
  unfold _decrease_oldest_active_balance.
  rewrite Hadv, (scan_advances_skip_paid _ _ _ _ _ Hbefore).
  destruct (Dec.eqb (Current_Balance A) remaining_amount) eqn:He.
  - rewrite (scan_advances_exact _ _ _ _ _ _ HA He).
    cbn [set_advances advances set_advance_balance advance_balance
         payments_for_future].
    replace (Dec.gtb (D 0) (D 0)) with false by reflexivity.
    cbn [andb]. cbn. repeat split; reflexivity.
  - assert (Hg : Dec.gtb (Current_Balance A) remaining_amount = true).
    { destruct (DecFacts.trichotomy (Current_Balance A) remaining_amount)
        as [[? _]|[[_ [? _]]|[_ [_ ?]]]]; congruence. }
    rewrite (scan_advances_partial _ _ _ _ _ _ HA Hg).
    cbn [set_advances advances set_advance_balance advance_balance
         payments_for_future].
    replace (Dec.gtb (D 0) (D 0)) with false by reflexivity.
    cbn [andb]. cbn. repeat split; reflexivity.
Qed.

(** X4. An amount above the balance of the only unpaid advance retires it
    and leaves the excess as payments-for-future, replacing whatever credit
    was banked before; the aggregate balance loses the advance's balance. *)
Theorem payoff_beyond_last_unpaid
    (self : AdvanceCalculator) (before after : ordered_dict)
    (k : Z) (A : Advance) (remaining_amount : Decimal) :
  advances self = before ++ (k, A) :: after ->
  all_paid before = true ->
  all_paid after = true ->
  is_paid A = false ->
  Dec.ltb (Current_Balance A) remaining_amount = true ->
  let self' := _decrease_oldest_active_balance self remaining_amount in
  advances self'
  = before ++ (k, set_is_paid true (set_Current_Balance (D 0) A)) :: after
  /\ advance_balance self' = advance_balance self - Current_Balance A
  /\ payments_for_future self'
     = Dec.abs (Current_Balance A - remaining_amount)
  /\ Dec.gtb (payments_for_future self') (D 0) = true.
Proof.
  intros Hadv Hbefore Hafter HA Hover self'. subst self'.
  unfold _decrease_oldest_active_balance.
  rewrite Hadv, (scan_advances_skip_paid _ _ _ _ _ Hbefore).
  rewrite (scan_advances_overpay _ _ _ _ _ _ HA Hover). cbv zeta.
  rewrite (scan_advances_all_paid _ _ _ _ Hafter).
  cbn [set_advances advances set_advance_balance advance_balance
       payments_for_future set_payments_for_future negb andb].
  rewrite andb_false_r.
  cbn [advances advance_balance payments_for_future].
  repeat split; try reflexivity.
  apply abs_pos. rewrite test_eq. apply (ltb_not_eqb _ _ Hover).
Qed.

(** ** Frames *)

Lemma payoff_frame_refl (s : AdvanceCalculator) : payoff_frame s s.
Proof. repeat split; reflexivity. Qed.

Lemma payoff_frame_trans (s1 s2 s3 : AdvanceCalculator) :
  payoff_frame s1 s2 -> payoff_frame s2 s3 -> payoff_frame s1 s3.
Proof.
  unfold payoff_frame.
  intros (?&?&?&?&?&?&?&?&?) (?&?&?&?&?&?&?&?&?).
  repeat split; congruence.
Qed.

Lemma scan_advances_frame (items : ordered_dict) :
  forall (self : AdvanceCalculator) (r : Decimal) (u : bool),
    payoff_frame self (snd (fst (fst (scan_advances self items r u)))).
Proof.
  induction items as [|[k a] rest IH]; intros self r u; cbn [scan_advances];
    [apply payoff_frame_refl|].
  destruct (is_paid a).
  - specialize (IH self r u).
    destruct (scan_advances self rest r u) as [[[? ?] ?] ?]. exact IH.
  - destruct (Dec.eqb (Current_Balance a - r) (D 0));
      [repeat split; reflexivity|].
    destruct (Dec.gtb (Current_Balance a - r) (D 0));
      [destruct u; repeat split; reflexivity|].
    destruct (Dec.ltb (Current_Balance a - r) (D 0)).
    + match goal with
      | |- context [scan_advances ?s rest ?r' ?u'] =>
          specialize (IH s r' u'); destruct (scan_advances s rest r' u')
            as [[[? ?] ?] ?]
      end.
      cbn [fst snd] in *.
      eapply payoff_frame_trans; [|exact IH]. repeat split; reflexivity.
    + specialize (IH self r u).
      destruct (scan_advances self rest r u) as [[[? ?] ?] ?]. exact IH.
Qed.

Lemma decrease_frame (self : AdvanceCalculator) (r : Decimal) :
  payoff_frame self (_decrease_oldest_active_balance self r).
Proof.
  unfold _decrease_oldest_active_balance.
  pose proof (scan_advances_frame (advances self) self r false) as Hs.
  destruct (scan_advances self (advances self) r false) as [[[items s] r'] u].
  cbn [fst snd] in Hs.
  match goal with |- context [if ?b then _ else _] => destruct b end;
    (eapply payoff_frame_trans; [exact Hs|]); repeat split; reflexivity.
Qed.

Lemma reconcile_frame (self : AdvanceCalculator) :
  payoff_frame self (reconcile self).
Proof.
  unfold reconcile.
  repeat match goal with
         | |- context [if ?b then _ else _] => destruct b
         end; repeat split; reflexivity.
Qed.

(** ** Interest first *)

(** X5. A payment meeting a strictly positive interest payable goes to
    interest first.  Below the interest payable, the whole payment is added
    to interest paid, the interest still payable is the magnitude of the
    difference and stays strictly positive, and neither the advances nor the
    two other balances move.  Above it, interest paid grows by the whole
    interest payable, which is then zero unless today's interest is asked
    for. *)
Theorem payment_pays_interest_first
    (self : AdvanceCalculator) (current_event : Event) :
  Dec.gtb (interest_payable_balance self) (D 0) = true ->
  (Dec.ltb (amount current_event) (interest_payable_balance self) = true ->
   forall increase_interest : bool,
   exists self',
     _execute_payment_flow self current_event increase_interest
     = Return tt self'
     /\ interest_paid self' = interest_paid self + amount current_event
     /\ interest_payable_balance self'
        = Dec.abs (amount current_event - interest_payable_balance self)
     /\ Dec.gtb (interest_payable_balance self') (D 0) = true
     /\ advances self' = advances self
     /\ advance_balance self' = advance_balance self
     /\ payments_for_future self' = payments_for_future self)
  /\ (Dec.gtb (amount current_event) (interest_payable_balance self) = true ->
      exists self',
        _execute_payment_flow self current_event false = Return tt self'
        /\ interest_paid self'
           = interest_paid self + interest_payable_balance self
        /\ interest_payable_balance self' = D 0).
Proof.
  intros Hpos. split.
  - intros Hlt inc. unfold _execute_payment_flow.
    rewrite Hpos, test_eq, test_lt, (ltb_not_eqb _ _ Hlt), Hlt.
    eexists. split; [reflexivity|]. cbn. repeat split; try reflexivity.
    apply abs_pos. rewrite test_eq. apply (ltb_not_eqb _ _ Hlt).
  - intros Hgt. unfold _execute_payment_flow.
    rewrite Hpos, test_eq, test_lt, test_gt.
    rewrite (gtb_not_eqb _ _ Hgt), (gtb_not_ltb _ _ Hgt), Hgt.
    eexists. split; [reflexivity|].
    match goal with
    | |- context [reconcile (_decrease_oldest_active_balance ?s ?r)] =>
        pose proof (payoff_frame_trans _ _ _ (decrease_frame s r)
                      (reconcile_frame (_decrease_oldest_active_balance s r)))
          as (Hi & Hp & _)
    end.
    rewrite Hi, Hp. split; reflexivity.
Qed.

(** ** Accrual *)

(** X6. No interest accrues on an advance balance of zero, whatever the
    dates and the [inclusive] flag, and none accrues over an inclusive gap
    of zero days, whatever the balance. *)
Theorem no_accrual_without_balance_or_days
    (self : AdvanceCalculator) (event_date last_event_date : Datetime.date)
    (inclusive : bool) :
  (Dec.eqb (advance_balance self) (D 0) = true ->
   Dec.eqb (daily_interest self) (D 0) = true
   /\ Dec.eqb
        (get_accrued_interests self event_date last_event_date inclusive)
        (D 0) = true)
  /\ Dec.eqb (get_accrued_interests self event_date event_date true) (D 0)
     = true.
Proof.
  split.
  - intros Hz.
    assert (Hd : Dec.eqb (daily_interest self) (D 0) = true).
    { unfold daily_interest.
      exact (mul_zero_r LOAN_INTEREST_RATE (advance_balance self) Hz). }
    split; [exact Hd|]. unfold get_accrued_interests.
    destruct inclusive.
    + exact (mul_zero_r _ (daily_interest self) Hd).
    + exact (mul_zero_r _ (daily_interest self) Hd).
  - unfold get_accrued_interests, get_date_difference_days.
    rewrite Z.sub_diag.
    exact (mul_zero_l (D 0) (daily_interest self) eq_refl).
Qed.

(** ** Invariants along every run *)

Section Invariant.

(** A property of the object that reads only the mapping, the counter and
    payments-for-future, and that the four state-changing steps keep. *)
Variable P : AdvanceCalculator -> Prop.

Hypothesis P_ext :
  forall s s' : AdvanceCalculator,
    advances s' = advances s -> advance_count s' = advance_count s ->
    payments_for_future s' = payments_for_future s -> P s -> P s'.
Hypothesis P_create :
  forall (s : AdvanceCalculator) (e : Event) (ub : bool),
    P s -> P (_create_advance s e ub).
Hypothesis P_flow :
  forall (s : AdvanceCalculator) (e : Event) (inc : bool),
    P s -> P (object_after s (_execute_payment_flow s e inc)).
Hypothesis P_convert :
  forall s : AdvanceCalculator,
    P s ->
    P (set_advance_balance (D 0)
         (set_payments_for_future
            (payments_for_future s + Dec.abs (advance_balance s)) s)).

Lemma inv_process_event (self : AdvanceCalculator) (e next_e : Event) :
  P self -> P (object_after self (process_event self e next_e)).
Proof.
  intros H. unfold process_event.
  assert (Hsnap : P (snapshot self))
    by (apply (P_ext self); [reflexivity..|exact H]).
  pose proof (P_create _ e true Hsnap) as Hc.
  pose proof (P_flow _ e false Hsnap) as Hp.
  pose proof (P_convert _ Hc) as Hv.
  destruct (Datetime.eqb (date e) (date next_e));
    destruct (String.eqb (type e) EVENT_ADVANCE_TYPE);
    try destruct (String.eqb (type e) EVENT_PAYMENT_TYPE);
    try destruct (_execute_payment_flow (snapshot self) e false)
      as [[] s|x s|];
    cbn [bind object_after] in *;
    try exact H;
    try (eapply P_ext; [| | |exact Hc]; reflexivity);
    try (eapply P_ext; [| | |exact Hp]; reflexivity);
    try (eapply P_ext; [| | |exact Hsnap]; reflexivity).
  all: destruct (is_same_date e);
    [destruct (Dec.ltb _ _)|];
    try (eapply P_ext; [| | |exact Hc]; reflexivity);
    try (eapply P_ext; [| | |exact Hv]; reflexivity).
Qed.

Lemma inv_main_loop (events : list event_tuple) (end_date : Datetime.date)
    (total_events : Z) (other : AdvanceCalculator) :
  P other ->
  forall (fuel : nat) (self : AdvanceCalculator) (v : locals),
    P self ->
    P (object_after other (main_loop fuel events end_date total_events self v)).
Proof.
  intros Hother. induction fuel as [|fuel IH]; intros self v H;
    cbn [main_loop];
    destruct ((event_count v <? total_events)%Z
              && negb (getattr_is_last (next_event v)));
    cbn [object_after]; try assumption.
  destruct (Event_at events (event_count v)) as [e|];
    cbn [object_after]; [|assumption].
  destruct (Datetime.gtb (date e) end_date); cbn [object_after]; [assumption|].
  destruct (Event_at events (event_count v + 1)) as [ne|];
    cbn [object_after]; [|assumption].
  set (e' := if getattr_is_same_date (next_event v)
             then set_is_same_date true e else e).
  assert (Hstep : forall ne' : Event,
             P (object_after other
                  (do (ne2, self0) <- process_event self e' ne';
                   main_loop fuel events end_date total_events self0
                     (mkLocals (event_count v + 1)%Z (event_count v + 1)%Z
                        (Some e') (Some ne2) false)))).
  { intros ne'. pose proof (inv_process_event self e' ne' H) as Hp.
    destruct (process_event self e' ne') as [ne'' s|x s|];
      cbn [bind object_after] in *; try assumption.
    apply IH. exact Hp. }
  cbv zeta.
  destruct (event_count v + 1 =? total_events)%Z; [apply Hstep|].
  destruct (Datetime.ltb _ end_date && Datetime.leb end_date (date ne));
    [exact H | apply Hstep].
Qed.

Lemma inv_lookahead_loop (events : list event_tuple) (end_date : Datetime.date)
    (other : AdvanceCalculator) :
  P other ->
  forall (fuel : nat) (self : AdvanceCalculator) (i j k : Z) (e ne : Event),
    P self ->
    P (object_after other
         (lookahead_loop fuel events end_date self i j k e ne)).
Proof.
  intros Hother. induction fuel as [|fuel IH]; intros self i j k e ne H;
    cbn [lookahead_loop object_after]; [assumption|].
  assert (Hp : forall ne' : Event,
             P (object_after other (process_event self e ne'))).
  { intros ne'. pose proof (inv_process_event self e ne' H) as Hp.
    destruct (process_event self e ne'); cbn [object_after] in *; assumption. }
  destruct (_get_future_event events k) as [fe|]; [|apply Hp].
  destruct (negb (Datetime.eqb (date ne) (date fe))); [apply Hp|].
  pose proof (inv_process_event self e (set_is_last false ne) H) as Hq.
  destruct (process_event self e (set_is_last false ne)) as [ne' s|x s|];
    cbn [bind object_after] in *; try assumption.
  destruct (Event_at events (i + 1)) as [e'|]; cbn [object_after]; [|assumption].
  destruct (Event_at events (j + 1)) as [ne''|];
    cbn [object_after]; [|assumption].
  apply IH. exact Hq.
Qed.

Lemma inv_finalize (other self : AdvanceCalculator) (end_date : Datetime.date)
    (next_e : option Event) :
  P other -> P self ->
  P (object_after other (finalize self end_date next_e)).
Proof.
  intros Hother H. unfold finalize. destruct next_e as [le|]; [|exact H].
  pose proof (P_create self le true H) as Hc.
  pose proof (P_flow self le false H) as Hp.
  destruct (Datetime.eqb (date le) end_date);
    [|destruct (Datetime.gtb end_date (date le))];
    destruct (String.eqb (type le) EVENT_ADVANCE_TYPE);
    try destruct (String.eqb (type le) EVENT_PAYMENT_TYPE);
    try destruct (_execute_payment_flow self le false) as [[] s|x s|];
    cbn [bind object_after] in *; try assumption;
    try (eapply P_ext; [| | |exact Hc]; reflexivity);
    try (eapply P_ext; [| | |exact Hp]; reflexivity);
    try (eapply P_ext; [| | |exact H]; reflexivity).
Qed.

Lemma inv_statistics (self : AdvanceCalculator) (events : list event_tuple)
    (end_date : Datetime.date) :
  P self ->
  P (object_after self (get_advance_statistics self events end_date)).
Proof.
  intros H. unfold get_advance_statistics.
  set (total := (Z.of_nat (List.length events) - 1)%Z).
  set (fuel := S (List.length events)).
  pose proof (inv_main_loop events end_date total self H fuel self
                fresh_locals H) as Hmain.
  destruct (main_loop fuel events end_date total self fresh_locals)
    as [[res|v] s|x s|]; cbn [bind object_after] in *; try assumption.
  destruct (is_end_date_detected v);
    [|cbn [bind]; apply inv_finalize; assumption].
  destruct (event v) as [e|]; [|exact Hmain].
  destruct (next_event v) as [ne|]; [|exact Hmain].
  destruct (Datetime.eqb end_date (date ne)).
  - pose proof (inv_lookahead_loop events end_date self H fuel s
                  (event_count v) (next_event_count v) (event_count v + 2)%Z
                  e ne Hmain) as Hl.
    destruct (lookahead_loop fuel events end_date s (event_count v)
                (next_event_count v) (event_count v + 2)%Z e ne)
      as [ne' s'|x s'|]; cbn [bind object_after] in *; try assumption.
    apply inv_finalize; assumption.
  - set (ne0 := set_amount (D 0) (set_date end_date ne)).
    pose proof (inv_process_event s e ne0 Hmain) as Hp.
    destruct (process_event s e ne0) as [ne' s'|x s'|];
      cbn [bind object_after] in *; try assumption.
    apply inv_finalize; assumption.
Qed.

Lemma inv_reachable :
  P init -> forall self : AdvanceCalculator, reachable self -> P self.
Proof.
  intros Hinit self Hr.
  induction Hr as [|self e ub _ IH He|self e inc _ IH|self e ne _ IH He
                   |self events end_date _ IH Hall].
  - exact Hinit.
  - apply P_create. exact IH.
  - apply P_flow. exact IH.
  - apply inv_process_event. exact IH.
  - apply inv_statistics. exact IH.
Qed.

End Invariant.

(** ** Identifiers *)

Lemma keys_between_weaken (lo hi hi' : Z) (d : ordered_dict) :
  (hi <= hi')%Z -> keys_between lo hi d -> keys_between lo hi' d.
Proof.
  revert lo; induction d as [|[k a] rest IH]; intros lo Hle; cbn; [auto|].
  intros [Hk Hrest]. split; [lia | apply IH; assumption].
Qed.

Lemma od_set_fresh (lo hi k : Z) (v : Advance) (d : ordered_dict) :
  keys_between lo hi d -> (hi < k)%Z -> od_set k v d = d ++ [(k, v)].
Proof.
  revert lo; induction d as [|[k' a] rest IH]; intros lo; cbn; [reflexivity|].
  intros [Hk Hrest] Hhi.
  destruct (Z.eqb_spec k' k); [lia|]. rewrite (IH _ Hrest Hhi). reflexivity.
Qed.

Lemma keys_between_snoc (lo hi k : Z) (v : Advance) (d : ordered_dict) :
  keys_between lo hi d -> (lo < k)%Z -> (hi < k)%Z ->
  keys_between lo k (d ++ [(k, v)]).
Proof.
  revert lo; induction d as [|[k' a] rest IH]; intros lo; cbn.
  - intros _ Hlo _. split; [lia | exact I].
  - intros [Hk Hrest] Hlo Hhi. split; [lia|]. apply IH; [assumption|lia|lia].
Qed.

Lemma keys_between_kept (d d' : ordered_dict) :
  Forall2 record_kept d d' ->
  forall lo hi : Z, keys_between lo hi d -> keys_between lo hi d'.
Proof.
  induction 1 as [|[k a] [k' a'] rest rest' Hkv Hrest IH]; intros lo hi;
    cbn; [auto|].
  destruct Hkv as [Hk _]. cbn in Hk. subst k'.
  intros [Hlo Hr]. split; [exact Hlo | apply IH; exact Hr].
Qed.

Lemma payment_flow_frame (self : AdvanceCalculator) (e : Event) (inc : bool) :
  advance_count (object_after self (_execute_payment_flow self e inc))
  = advance_count self.
Proof.
  unfold _execute_payment_flow.
  repeat match goal with
         | |- context [if ?b then _ else _] => destruct b
         end; cbn [object_after advance_count set_interest_payable_balance
                   set_interest_paid]; try reflexivity;
    repeat match goal with
           | |- context [reconcile ?s] =>
               rewrite (proj1 (proj2 (proj2 (proj2 (proj2 (proj2
                          (proj2 (reconcile_frame s))))))))
           | |- context [_decrease_oldest_active_balance ?s ?r] =>
               rewrite (proj1 (proj2 (proj2 (proj2 (proj2 (proj2
                          (proj2 (decrease_frame s r))))))))
           end; reflexivity.
Qed.

Lemma create_advance_keys (self : AdvanceCalculator) (e : Event) (ub : bool) :
  keys_ok self -> keys_ok (_create_advance self e ub).
Proof.
  intros [Hc Hk]. unfold _create_advance.
  assert (Hnew : forall (s : AdvanceCalculator) (x : Decimal),
             advances s = advances self ->
             advance_count s = (advance_count self + 1)%Z ->
             keys_ok
               (let self3 :=
                  if is_truncated e then s
                  else set_advances
                         (od_set (advance_count s)
                            (mkAdvance (date e) (amount e) x false)
                            (advances s)) s in
                if ub
                then set_advance_balance (advance_balance self3 + x) self3
                else self3)).
  { intros s x Ha Hn. cbv zeta. unfold keys_ok.
    destruct ub, (is_truncated e);
      cbn [advances advance_count set_advance_balance set_advances];
      rewrite ?Ha, ?Hn; (split; [lia|]);
      try (apply (keys_between_weaken 0 (advance_count self)); [lia|exact Hk]);
      rewrite (od_set_fresh 0 (advance_count self)) by (assumption || lia);
      apply (keys_between_snoc 0 (advance_count self)); (assumption || lia). }
  cbv zeta.
  destruct (Dec.gtb (payments_for_future _) (D 0));
    [destruct (Dec.gtb (amount e - _) (D 0));
     [|destruct (Dec.eqb (amount e - _) (D 0));
       [|destruct (Dec.ltb (amount e - _) (D 0))]]|];
    apply Hnew; reflexivity.
Qed.

(** X7. Advance identifiers are never reused or reordered: on every object
    reached from a fresh calculator, the keys of the mapping are strictly
    increasing in insertion order and lie between 1 and the advance
    counter. *)
Theorem identifiers_increase (self : AdvanceCalculator) :
  reachable self -> keys_ok self.
Proof.
  apply (inv_reachable keys_ok).
  - intros s s' Ha Hc _ [H0 Hk]. unfold keys_ok. rewrite Ha, Hc.
    split; assumption.
  - intros s e ub. apply create_advance_keys.
  - intros s e inc [H0 Hk]. unfold keys_ok.
    rewrite payment_flow_frame. split; [exact H0|].
    apply (keys_between_kept (advances s));
      [apply payment_flow_kept | exact Hk].
  - intros s [H0 Hk]. split; assumption.
  - split; [cbn; lia | exact I].
Qed.

(** ** Banked credit *)

Lemma scan_advances_credit (items : ordered_dict) :
  forall (self : AdvanceCalculator) (r : Decimal) (u : bool),
    Dec.ltb (payments_for_future self) (D 0) = false ->
    Dec.ltb
      (payments_for_future (snd (fst (fst (scan_advances self items r u)))))
      (D 0) = false.
Proof.
  induction items as [|[k a] rest IH]; intros self r u H; cbn [scan_advances];
    [exact H|].
  destruct (is_paid a).
  - specialize (IH self r u H).
    destruct (scan_advances self rest r u) as [[[? ?] ?] ?]. exact IH.
  - destruct (Dec.eqb (Current_Balance a - r) (D 0)); [exact H|].
    destruct (Dec.gtb (Current_Balance a - r) (D 0));
      [destruct u; [reflexivity | exact H]|].
    destruct (Dec.ltb (Current_Balance a - r) (D 0)).
    + match goal with
      | |- context [scan_advances ?s rest ?r' ?u'] =>
          specialize (IH s r' u' (DecFacts.abs_nonneg _));
            destruct (scan_advances s rest r' u') as [[[? ?] ?] ?]
      end.
      exact IH.
    + specialize (IH self r u H).
      destruct (scan_advances self rest r u) as [[[? ?] ?] ?]. exact IH.
Qed.

Lemma decrease_credit (self : AdvanceCalculator) (r : Decimal) :
  Dec.ltb (payments_for_future self) (D 0) = false ->
  Dec.ltb (payments_for_future (_decrease_oldest_active_balance self r)) (D 0)
  = false.
Proof.
  intros H. unfold _decrease_oldest_active_balance.
  pose proof (scan_advances_credit (advances self) self r false H) as Hs.
  destruct (scan_advances self (advances self) r false) as [[[items s] r'] u].
  cbn [fst snd] in Hs.
  destruct (Dec.gtb r' (D 0)) eqn:Hr; cbn [andb]; [|exact Hs].
  match goal with |- context [if ?b then _ else _] => destruct b end;
    [|exact Hs].
  cbn [payments_for_future set_payments_for_future set_advances].
  apply add_nonneg; [exact Hs | apply (gtb_not_ltb _ _ Hr)].
Qed.

Lemma reconcile_credit (self : AdvanceCalculator) :
  Dec.ltb (payments_for_future self) (D 0) = false ->
  Dec.ltb (payments_for_future (reconcile self)) (D 0) = false.
Proof.
  intros H. unfold reconcile.
  repeat match goal with
         | |- context [if ?b then _ else _] => destruct b
         end; cbn [payments_for_future set_payments_for_future
                   set_advance_balance];
    try exact H; try reflexivity; apply DecFacts.abs_nonneg.
Qed.

Lemma payment_flow_credit (self : AdvanceCalculator) (e : Event) (inc : bool) :
  Dec.ltb (payments_for_future self) (D 0) = false ->
  Dec.ltb
    (payments_for_future (object_after self (_execute_payment_flow self e inc)))
    (D 0) = false.
Proof.
  intros H. unfold _execute_payment_flow.
  repeat match goal with
         | |- context [if ?b then _ else _] => destruct b
         end; cbn [object_after payments_for_future
                   set_interest_payable_balance set_interest_paid];
    try exact H;
    try apply reconcile_credit; apply decrease_credit; exact H.
Qed.

Lemma create_advance_credit (self : AdvanceCalculator) (e : Event) (ub : bool) :
  Dec.ltb (payments_for_future self) (D 0) = false ->
  Dec.ltb (payments_for_future (_create_advance self e ub)) (D 0) = false.
Proof.
  intros H. unfold _create_advance. cbv zeta.
  destruct (Dec.gtb (payments_for_future _) (D 0));
    [destruct (Dec.gtb (amount e - _) (D 0));
     [|destruct (Dec.eqb (amount e - _) (D 0));
       [|destruct (Dec.ltb (amount e - _) (D 0))]]|];
    destruct ub, (is_truncated e);
    cbn [payments_for_future set_payments_for_future set_advance_balance
         set_advances set_advance_count];
    try exact H; try reflexivity; apply DecFacts.abs_nonneg.
Qed.

(** X8. Payments-for-future is never negative: on every object reached
    from a fresh calculator, whether the calls returned or raised, the banked
    credit compares as not below zero. *)
Theorem credit_never_negative (self : AdvanceCalculator) :
  reachable self -> Dec.ltb (payments_for_future self) (D 0) = false.
Proof.
  apply (inv_reachable
           (fun s => Dec.ltb (payments_for_future s) (D 0) = false)).
  - intros s s' _ _ Hp H. rewrite Hp. exact H.
  - intros s e ub. apply create_advance_credit.
  - intros s e inc. apply payment_flow_credit.
  - intros s H. cbn [payments_for_future set_payments_for_future
                     set_advance_balance].
    apply add_nonneg; [exact H | apply DecFacts.abs_nonneg].
  - reflexivity.
Qed.

(** ** Advance creation *)

Lemma eqb_refl (x : Decimal) : Dec.eqb x x = true.
Proof. unfold Dec.eqb, Dec.cmp. rewrite Z.compare_refl. reflexivity. Qed.

Lemma eqb_zero_abs (x : Decimal) :
  Dec.eqb x (D 0) = true -> Dec.eqb (D 0) (Dec.abs x) = true.
Proof.
  intros Hx. apply eqb_zero_coef in Hx.
  assert (Ha : Dec.coef (Dec.abs x) = 0%Z).
  { unfold Dec.abs. apply (proj2 (proj2 (fix_prec_coef_sign _))).
    cbn [Dec.coef]. lia. }
  unfold Dec.eqb, Dec.cmp, Dec.aligned. cbn [Dec.coef Dec.of_Z].
  rewrite Ha. reflexivity.
Qed.

(** X9. What an advance event stores.  On an object whose identifiers are
    in order, an event that is not the truncated marker adds exactly one
    record, last in the mapping, under the next identifier, unpaid, with the
    event's date and amount; every earlier entry is untouched.  Its opening
    balance is the amount when no credit is banked, the amount less the
    credit when the amount is larger (the credit is then zero), and zero
    otherwise (the credit left then compares equal to the magnitude of the
    difference).  The aggregate balance grows by the opening balance when
    asked to.  A truncated marker stores nothing but still takes an
    identifier. *)
Theorem create_advance_record
    (self : AdvanceCalculator) (e : Event) (update_balance : bool) :
  keys_ok self ->
  let self' := _create_advance self e update_balance in
  advance_count self' = (advance_count self + 1)%Z
  /\ (is_truncated e = true -> advances self' = advances self)
  /\ (is_truncated e = false ->
      exists opening : Decimal,
        advances self'
        = advances self
            ++ [(advance_count self + 1,
                 mkAdvance (date e) (amount e) opening false)%Z]
        /\ advance_balance self'
           = (if update_balance then advance_balance self + opening
              else advance_balance self)
        /\ (Dec.gtb (payments_for_future self) (D 0) = false ->
            opening = amount e
            /\ payments_for_future self' = payments_for_future self)
        /\ (Dec.gtb (payments_for_future self) (D 0) = true ->
            Dec.gtb (amount e) (payments_for_future self) = true ->
            opening = amount e - payments_for_future self
            /\ payments_for_future self' = D 0)
        /\ (Dec.gtb (payments_for_future self) (D 0) = true ->
            Dec.gtb (amount e) (payments_for_future self) = false ->
            opening = D 0
            /\ Dec.eqb (payments_for_future self')
                 (Dec.abs (amount e - payments_for_future self)) = true)).
Proof.
  intros [Hc Hk] self'. subst self'. unfold _create_advance. cbv zeta.
  cbn [payments_for_future set_advance_count].
  destruct (Dec.gtb (payments_for_future self) (D 0)) eqn:Hcredit.
  - rewrite test_gt, test_eq, test_lt.
    destruct (DecFacts.trichotomy (amount e) (payments_for_future self))
      as [(He & Hl & Hg)|[(He & Hl & Hg)|(He & Hl & Hg)]];
      rewrite ?He, ?Hl, ?Hg;
      (split; [destruct update_balance, (is_truncated e); reflexivity|]);
      (split; [intros Ht; rewrite Ht; destruct update_balance; reflexivity|]);
      intros Ht; rewrite Ht; eexists;
      cbn [advances advance_count set_payments_for_future set_advance_count
           set_advances];
      rewrite (od_set_fresh 0 (advance_count self)) by (assumption || lia);
      (split; [destruct update_balance; reflexivity|]);
      (split; [destruct update_balance; reflexivity|]);
      (split; [discriminate|]);
      (split; [intros _ Hx; try discriminate;
               destruct update_balance; split; reflexivity|]);
      intros _ Hx; try discriminate;
      (split; [reflexivity|]);
      destruct update_balance;
      cbn [payments_for_future set_advance_balance set_advances
           set_payments_for_future];
      try apply eqb_refl;
      apply eqb_zero_abs; rewrite test_eq; exact He.
  - split; [destruct update_balance, (is_truncated e); reflexivity|].
    split; [intros Ht; rewrite Ht; destruct update_balance; reflexivity|].
    intros Ht. rewrite Ht. exists (amount e).
    cbn [advances advance_count set_advance_count set_advances].
    rewrite (od_set_fresh 0 (advance_count self)) by (assumption || lia).
    split; [destruct update_balance; reflexivity|].
    split; [destruct update_balance; reflexivity|].
    split; [intros _; destruct update_balance; split; reflexivity|].
    split; discriminate.
Qed.

(** ** Bookkeeping of the event-pair transition *)

Lemma payment_flow_raise (self self' : AdvanceCalculator) (e : Event)
    (inc : bool) (x : exn) :
  _execute_payment_flow self e inc = Raise x self' ->
  x = ValueError /\ self' = self
  /\ Dec.ltb (interest_payable_balance self) (D 0) = true.
Proof.
  unfold _execute_payment_flow.
  repeat match goal with
         | |- context [if ?b then _ else _] => destruct b eqn:?
         end; try discriminate.
  intros [= <- <-]. repeat split; assumption.
Qed.

Lemma payment_flow_snapshot (self : AdvanceCalculator) (e : Event) (inc : bool) :
  payoff_frame
    (set_interest_paid (interest_paid self)
       (set_interest_payable_balance (interest_payable_balance self) self))
    (set_interest_paid (interest_paid self)
       (set_interest_payable_balance (interest_payable_balance self)
          (object_after self (_execute_payment_flow self e inc)))).
Proof.
  unfold _execute_payment_flow.
  repeat match goal with
         | |- context [if ?b then _ else _] => destruct b
         end; cbn [object_after]; try (repeat split; reflexivity).
  all: match goal with
       | |- context [reconcile (_decrease_oldest_active_balance ?s ?r)] =>
           pose proof (payoff_frame_trans _ _ _ (decrease_frame s r)
                         (reconcile_frame (_decrease_oldest_active_balance s r)))
             as (_ & _ & H1 & H2 & H3 & H4 & H5 & H6 & H7)
       | |- context [_decrease_oldest_active_balance ?s ?r] =>
           pose proof (decrease_frame s r)
             as (_ & _ & H1 & H2 & H3 & H4 & H5 & H6 & H7)
       end;
    repeat split; cbn in *; congruence.
Qed.

Lemma create_advance_snapshot (self : AdvanceCalculator) (e : Event) (ub : bool) :
  last_advance_balance (_create_advance self e ub) = last_advance_balance self
  /\ last_interest_payable_balance (_create_advance self e ub)
     = last_interest_payable_balance self
  /\ last_interest_paid (_create_advance self e ub) = last_interest_paid self
  /\ last_payments_for_future (_create_advance self e ub)
     = last_payments_for_future self
  /\ last_event (_create_advance self e ub) = last_event self.
Proof.
  unfold _create_advance. cbv zeta.
  destruct (Dec.gtb (payments_for_future _) (D 0));
    [destruct (Dec.gtb (amount e - _) (D 0));
     [|destruct (Dec.eqb (amount e - _) (D 0));
       [|destruct (Dec.ltb (amount e - _) (D 0))]]|];
    destruct ub, (is_truncated e); repeat split; reflexivity.
Qed.

(** X10. Every call of the event-pair transition first records the four
    balances it found: whatever the outcome, the snapshot fields of the
    object hold the balances from before the call.  When it returns, the
    current event is remembered as the last event and the next event comes
    back changed in one way only: its same-date flag is set when the two
    dates are equal.  It can only raise [ValueError], for a payment meeting a
    negative interest payable, and then nothing but the snapshot has been
    written. *)
Theorem process_event_bookkeeping
    (self : AdvanceCalculator) (e next_e : Event) :
  snapshot_of self (object_after self (process_event self e next_e))
  /\ (forall (next_e' : Event) (self' : AdvanceCalculator),
        process_event self e next_e = Return next_e' self' ->
        last_event self' = Some e
        /\ next_e'
           = (if Datetime.eqb (date e) (date next_e)
              then set_is_same_date true next_e else next_e))
  /\ (forall (x : exn) (self' : AdvanceCalculator),
        process_event self e next_e = Raise x self' ->
        x = ValueError /\ self' = snapshot self
        /\ type e = EVENT_PAYMENT_TYPE
        /\ Dec.ltb (interest_payable_balance self) (D 0) = true).
Proof.
  pose proof (create_advance_snapshot (snapshot self) e true)
    as (Hc1 & Hc2 & Hc3 & Hc4 & _).
  pose proof (payment_flow_snapshot (snapshot self) e false)
    as (_ & _ & Hf1 & Hf2 & Hf3 & Hf4 & _).
  pose proof (payment_flow_raise (snapshot self)) as Hraise.
  pose proof (payment_flow_total (snapshot self) e false) as Htotal.
  cbn [last_advance_balance last_interest_payable_balance last_interest_paid
       last_payments_for_future set_interest_paid
       set_interest_payable_balance] in Hf1, Hf2, Hf3, Hf4.
  unfold process_event, snapshot_of.
  destruct (Datetime.eqb (date e) (date next_e));
    (destruct (String.eqb (type e) EVENT_ADVANCE_TYPE) eqn:Hadv;
     [|destruct (String.eqb (type e) EVENT_PAYMENT_TYPE) eqn:Hpay;
       [destruct (_execute_payment_flow (snapshot self) e false)
          as [[] s|x s|] eqn:Hflow; [| |congruence]|]]);
    cbn [bind object_after] in *.
  all: split;
    [try (destruct (is_same_date e);
          [destruct (Dec.ltb (advance_balance (_create_advance _ _ _)) (D 0))|]);
     cbn [last_advance_balance last_interest_payable_balance last_interest_paid
          last_payments_for_future set_last_event set_last_advance
          set_interest_payable_balance set_advance_balance
          set_payments_for_future];
     rewrite ?Hc1, ?Hc2, ?Hc3, ?Hc4, ?Hf1, ?Hf2, ?Hf3, ?Hf4;
     repeat split; reflexivity
    |].
  all: split;
    [try (intros ? ? [= <- <-]; split; reflexivity); intros ? ? [=]|].
  all: try (intros ? ? [=]; fail).
  all: intros x' s' [= <- <-];
    destruct (Hraise s e false x Hflow) as (Hx & Hs & Hneg);
    repeat split; try assumption;
    apply String.eqb_eq; exact Hpay.
Qed.

(** X11. An event whose kind is neither an advance nor a payment is
    ignored without error.  As the current event of a transition it leaves
    the four balances, the mapping and the counter as they were, and no
    interest accrues even across distinct dates; as the last event of a run,
    dated on the end date or after it, it is not applied at all and the
    finalisation returns the magnitudes of the balances as they stand. *)
Theorem unknown_event_kind_is_ignored
    (self : AdvanceCalculator) (e next_e : Event) (end_date : Datetime.date) :
  String.eqb (type e) EVENT_ADVANCE_TYPE = false ->
  String.eqb (type e) EVENT_PAYMENT_TYPE = false ->
  (exists (next_e' : Event) (self' : AdvanceCalculator),
     process_event self e next_e = Return next_e' self'
     /\ same_balances self self'
     /\ advances self' = advances self
     /\ advance_count self' = advance_count self)
  /\ (Datetime.gtb end_date (date e) = false ->
      finalize self end_date (Some e)
      = Return (Dec.abs (advance_balance self),
                Dec.abs (interest_payable_balance self),
                Dec.abs (interest_paid self),
                Dec.abs (payments_for_future self)) self).
Proof.
  intros Ha Hp. split.
  - unfold process_event. rewrite Ha, Hp.
    destruct (Datetime.eqb (date e) (date next_e)); cbn [bind];
      eexists; eexists; (split; [reflexivity|]); repeat split; reflexivity.
  - intros Hend. unfold finalize. rewrite Ha, Hp, Hend.
    destruct (Datetime.eqb (date e) end_date); reflexivity.
Qed.

(** ** The driver on lists of two events or more *)

Lemma process_event_next_shape (self self' : AdvanceCalculator)
    (e next_e next_e' : Event) :
  process_event self e next_e = Return next_e' self' ->
  next_e'
  = (if Datetime.eqb (date e) (date next_e)
     then set_is_same_date true next_e else next_e).
Proof.
  unfold process_event.
  destruct (Datetime.eqb (date e) (date next_e));
    destruct (String.eqb (type e) EVENT_ADVANCE_TYPE);
    try destruct (String.eqb (type e) EVENT_PAYMENT_TYPE);
    try destruct (_execute_payment_flow (snapshot self) e false)
      as [[] s|x s|];
    cbn [bind]; intros [= <- _]; reflexivity.
Qed.

Lemma process_event_raise (self self' : AdvanceCalculator)
    (e next_e : Event) (x : exn) :
  process_event self e next_e = Raise x self' -> x = ValueError.
Proof.
  unfold process_event.
  pose proof (payment_flow_raise (snapshot self)) as Hraise.
  destruct (Datetime.eqb (date e) (date next_e));
    destruct (String.eqb (type e) EVENT_ADVANCE_TYPE);
    try destruct (String.eqb (type e) EVENT_PAYMENT_TYPE);
    try destruct (_execute_payment_flow (snapshot self) e false)
      as [[] s|x0 s|] eqn:Hflow;
    cbn [bind]; intros [= <- _];
    exact (proj1 (Hraise _ _ _ _ Hflow)).
Qed.

Lemma Event_at_in_range (events : list event_tuple) (i : Z) :
  (0 <= i < Z.of_nat (List.length events))%Z ->
  exists t, nth_error events (Z.to_nat i) = Some t
            /\ Event_at events i = Some (Event_of_tuple t).
Proof.
  intros Hi. unfold Event_at, py_index.
  destruct (Z.ltb_spec i 0); [lia|].
  destruct (nth_error events (Z.to_nat i)) as [t|] eqn:Hn.
  - exists t. split; reflexivity.
  - apply nth_error_None in Hn. lia.
Qed.

Lemma date_eqb_not_gtb (a b : Datetime.date) :
  Datetime.eqb a b = true -> Datetime.gtb a b = false.
Proof.
  unfold Datetime.eqb, Datetime.gtb. destruct (Datetime.cmp a b); congruence.
Qed.

Lemma date_eqb_not_ltb (a b : Datetime.date) :
  Datetime.eqb a b = true -> Datetime.ltb a b = false.
Proof.
  unfold Datetime.eqb, Datetime.ltb. destruct (Datetime.cmp a b); congruence.
Qed.

(** One turn of the first loop, its condition true. *)
Lemma main_loop_turn (fuel : nat) (events : list event_tuple)
    (end_date : Datetime.date) (total_events : Z)
    (self : AdvanceCalculator) (v : locals) (e ne : Event) :
  (event_count v <? total_events)%Z = true ->
  getattr_is_last (next_event v) = false ->
  Event_at events (event_count v) = Some e ->
  Event_at events (event_count v + 1) = Some ne ->
  main_loop (S fuel) events end_date total_events self v
  = if Datetime.gtb (date e) end_date
    then Return (Returned (D 0, D 0, D 0, D 0)) self
    else
      let e' := if getattr_is_same_date (next_event v)
                then set_is_same_date true e else e in
      let step (ne0 : Event) :=
        do (ne2, self0) <- process_event self e' ne0;
        main_loop fuel events end_date total_events self0
          (mkLocals (event_count v + 1)%Z (event_count v + 1)%Z
             (Some e') (Some ne2) false) in
      if (event_count v + 1 =? total_events)%Z
      then step (set_is_last true ne)
      else if Datetime.ltb (date e') end_date
              && Datetime.leb end_date (date ne)
      then Return
             (Fell (mkLocals (event_count v) (event_count v + 1)%Z (Some e')
                      (Some (set_is_last true ne)) true)) self
      else step ne.
Proof.
  intros Hc Hl He Hne. cbn [main_loop]. rewrite Hc, Hl, He, Hne. reflexivity.
Qed.

(** X13. The date test of the first loop runs on every iteration: with
    three events or more, a first event dated on the end date and a second
    one dated after it, the first event is applied to the object and the
    call then returns four zeros, not the balances just computed. *)
Theorem statistics_zero_after_end_date_event
    (self self' : AdvanceCalculator) (t1 t2 t3 : event_tuple)
    (rest : list event_tuple) (end_date : Datetime.date) (next_e' : Event) :
  Datetime.eqb (date (Event_of_tuple t1)) end_date = true ->
  Datetime.gtb (date (Event_of_tuple t2)) end_date = true ->
  process_event self (Event_of_tuple t1) (Event_of_tuple t2)
  = Return next_e' self' ->
  get_advance_statistics self (t1 :: t2 :: t3 :: rest) end_date
  = Return (D 0, D 0, D 0, D 0) self'.
Proof.
  intros Hon Hafter Hstep.
  pose proof (process_event_next_shape _ _ _ _ _ Hstep) as Hshape.
  assert (Hlast : is_last next_e' = false).
  { rewrite Hshape. destruct t2 as [[[i ty] a] d].
    match goal with
    | |- context [if ?b then _ else _] => destruct b
    end; reflexivity. }
  unfold get_advance_statistics.
  set (events := t1 :: t2 :: t3 :: rest).
  set (total := (Z.of_nat (List.length events) - 1)%Z).
  assert (Htotal : (2 <= total)%Z)
    by (unfold total, events; cbn [List.length]; lia).
  change (S (List.length events))
    with (S (S (S (S (List.length rest))))).
  rewrite (main_loop_turn _ events end_date total self fresh_locals
             (Event_of_tuple t1) (Event_of_tuple t2));
    [|apply Z.ltb_lt; cbn [event_count fresh_locals]; lia
     |reflexivity|reflexivity|reflexivity].
  rewrite (date_eqb_not_gtb _ _ Hon). cbv zeta.
  cbn [fresh_locals next_event event_count getattr_is_same_date].
  rewrite (date_eqb_not_ltb _ _ Hon).
  replace (0 + 1 =? total)%Z with false by (symmetry; apply Z.eqb_neq; lia).
  cbn [andb]. rewrite Hstep. cbn [bind].
  rewrite (main_loop_turn _ events end_date total self' _
             (Event_of_tuple t2) (Event_of_tuple t3));
    [|apply Z.ltb_lt; cbn [event_count]; lia
     |exact Hlast|reflexivity|reflexivity].
  rewrite Hafter. reflexivity.
Qed.

Lemma main_loop_returned (events : list event_tuple) (end_date : Datetime.date)
    (total_events : Z) :
  forall (fuel : nat) (self self' : AdvanceCalculator) (v : locals)
         (res : Decimal * Decimal * Decimal * Decimal),
    main_loop fuel events end_date total_events self v
    = Return (Returned res) self' ->
    res = (D 0, D 0, D 0, D 0).
Proof.
  induction fuel as [|fuel IH]; intros self self' v res; cbn [main_loop];
    destruct ((event_count v <? total_events)%Z
              && negb (getattr_is_last (next_event v)));
    try discriminate.
  destruct (Event_at events (event_count v)) as [e|]; [|discriminate].
  destruct (Datetime.gtb (date e) end_date);
    [intros [= <- _]; reflexivity|].
  destruct (Event_at events (event_count v + 1)) as [ne|]; [|discriminate].
  set (e' := if getattr_is_same_date (next_event v)
             then set_is_same_date true e else e).
  assert (Hstep : forall ne0 : Event,
             (do (ne2, self0) <- process_event self e' ne0;
              main_loop fuel events end_date total_events self0
                (mkLocals (event_count v + 1)%Z (event_count v + 1)%Z
                   (Some e') (Some ne2) false))
             = Return (Returned res) self' ->
             res = (D 0, D 0, D 0, D 0)).
  { intros ne0.
    destruct (process_event self e' ne0) as [ne2 s|x s|]; cbn [bind];
      try discriminate.
    apply IH. }
  cbv zeta.
  destruct (event_count v + 1 =? total_events)%Z; [apply Hstep|].
  destruct (Datetime.ltb _ end_date && Datetime.leb end_date (date ne));
    [discriminate | apply Hstep].
Qed.

Lemma finalize_returns (self self' : AdvanceCalculator)
    (end_date : Datetime.date) (next_e : option Event)
    (res : Decimal * Decimal * Decimal * Decimal) :
  finalize self end_date next_e = Return res self' ->
  res = (Dec.abs (advance_balance self'),
         Dec.abs (interest_payable_balance self'),
         Dec.abs (interest_paid self'),
         Dec.abs (payments_for_future self')).
Proof.
  unfold finalize. destruct next_e as [le|]; [|discriminate].
  cbv zeta.
  match goal with
  | |- bind ?m _ = _ -> _ => destruct m as [[] s|x s|]
  end; cbn [bind]; try discriminate.
  intros [= <- <-]. reflexivity.
Qed.

(** X15. Whenever [get_advance_statistics] returns, its four values are
    either all zero (the early return) or the magnitudes of the four balances
    of the object it leaves behind; in both cases none of them is
    negative. *)
Theorem statistics_results_not_negative
    (self self' : AdvanceCalculator) (events : list event_tuple)
    (end_date : Datetime.date) (a b c d : Decimal) :
  get_advance_statistics self events end_date = Return (a, b, c, d) self' ->
  ((a, b, c, d) = (D 0, D 0, D 0, D 0)
   \/ (a, b, c, d)
      = (Dec.abs (advance_balance self'),
         Dec.abs (interest_payable_balance self'),
         Dec.abs (interest_paid self'),
         Dec.abs (payments_for_future self')))
  /\ Dec.ltb a (D 0) = false /\ Dec.ltb b (D 0) = false
  /\ Dec.ltb c (D 0) = false /\ Dec.ltb d (D 0) = false.
Proof.
  intros Hret.
  assert (Hcases :
            (a, b, c, d) = (D 0, D 0, D 0, D 0)
            \/ (a, b, c, d)
               = (Dec.abs (advance_balance self'),
                  Dec.abs (interest_payable_balance self'),
                  Dec.abs (interest_paid self'),
                  Dec.abs (payments_for_future self'))).
  { revert Hret. unfold get_advance_statistics.
    set (total := (Z.of_nat (List.length events) - 1)%Z).
    set (fuel := S (List.length events)).
    pose proof (main_loop_returned events end_date total fuel self) as Hz.
    destruct (main_loop fuel events end_date total self fresh_locals)
      as [[res|v] s|x s|] eqn:Hloop; cbn [bind]; try discriminate.
    - intros [= <- <-]. left. exact (Hz _ _ _ Hloop).
    - intros Hfin. right.
      destruct (is_end_date_detected v); cbn [bind] in Hfin.
      + destruct (event v) as [e|]; [|discriminate].
        destruct (next_event v) as [ne|]; [|discriminate].
        destruct (Datetime.eqb end_date (date ne)).
        * destruct (lookahead_loop fuel events end_date s (event_count v)
                      (next_event_count v) (event_count v + 2)%Z e ne)
            as [ne' s'|x s'|]; cbn [bind] in Hfin; try discriminate.
          exact (finalize_returns _ _ _ _ _ Hfin).
        * destruct (process_event s e (set_amount (D 0) (set_date end_date ne)))
            as [ne' s'|x s'|]; cbn [bind] in Hfin; try discriminate.
          exact (finalize_returns _ _ _ _ _ Hfin).
      + exact (finalize_returns _ _ _ _ _ Hfin). }
  split; [exact Hcases|].
  destruct Hcases as [[= -> -> -> ->]|[= -> -> -> ->]];
    repeat split; try reflexivity; apply DecFacts.abs_nonneg.
Qed.

Lemma finalize_returns_or_ValueError (self : AdvanceCalculator)
    (end_date : Datetime.date) (le : Event) :
  returns_or_ValueError (finalize self end_date (Some le)).
Proof.
  unfold finalize.
  pose proof (payment_flow_raise self) as Hraise.
  pose proof (payment_flow_total self le false) as Htotal.
  destruct (Datetime.eqb (date le) end_date);
    [|destruct (Datetime.gtb end_date (date le))];
    (destruct (String.eqb (type le) EVENT_ADVANCE_TYPE);
     [|destruct (String.eqb (type le) EVENT_PAYMENT_TYPE);
       [destruct (_execute_payment_flow self le false)
          as [[] s|x s|] eqn:Hflow; [| |congruence]|]]);
    cbn [bind returns_or_ValueError]; try exact I;
    exact (proj1 (Hraise _ _ _ _ Hflow)).
Qed.

Lemma process_event_returns_or_ValueError (self : AdvanceCalculator)
    (e next_e : Event) :
  returns_or_ValueError (process_event self e next_e).
Proof.
  pose proof (process_event_raise self) as Hr.
  pose proof (process_event_total self e next_e) as Ht.
  destruct (process_event self e next_e) as [ne s|x s|] eqn:Hp;
    cbn [returns_or_ValueError]; [exact I | exact (Hr _ _ _ _ Hp) | congruence].
Qed.

Lemma main_loop_fell_ok (events : list event_tuple) (end_date : Datetime.date) :
  forall (fuel : nat) (self : AdvanceCalculator) (v : locals),
    (0 <= event_count v)%Z ->
    is_end_date_detected v = false ->
    (next_event v = None ->
     (event_count v < Z.of_nat (List.length events) - 1)%Z) ->
    (Z.of_nat (List.length events) - 1 - event_count v < Z.of_nat fuel)%Z ->
    fell_ok
      (main_loop fuel events end_date (Z.of_nat (List.length events) - 1)
         self v).
Proof.
  set (total := (Z.of_nat (List.length events) - 1)%Z).
  induction fuel as [|fuel IH]; intros self v H0 Hdet Hnone Hfuel;
    cbn [main_loop];
    destruct (Z.ltb_spec (event_count v) total) as [Hlt|Hge]; cbn [andb].
  - lia.
  - cbn [fell_ok]. split; [exact H0|]. split; [|congruence].
    intros Hn. specialize (Hnone Hn). lia.
  - destruct (negb (getattr_is_last (next_event v))) eqn:Hlast.
    + destruct (Event_at_in_range events (event_count v))
        as (t & _ & He); [unfold total in Hlt; lia|].
      destruct (Event_at_in_range events (event_count v + 1))
        as (t' & _ & Hne); [unfold total in Hlt; lia|].
      rewrite He, Hne.
      destruct (Datetime.gtb (date (Event_of_tuple t)) end_date);
        [exact I|].
      set (e' := if getattr_is_same_date (next_event v)
                 then set_is_same_date true (Event_of_tuple t)
                 else Event_of_tuple t).
      assert (Hstep : forall ne0 : Event,
                 fell_ok
                   (do (ne2, self0) <- process_event self e' ne0;
                    main_loop fuel events end_date total self0
                      (mkLocals (event_count v + 1)%Z (event_count v + 1)%Z
                         (Some e') (Some ne2) false))).
      { intros ne0.
        pose proof (process_event_returns_or_ValueError self e' ne0) as Hp.
        destruct (process_event self e' ne0) as [ne2 s|x s|]; cbn [bind];
          [|exact Hp|exact Hp].
        apply IH; cbn [event_count next_event is_end_date_detected];
          try lia; try reflexivity. discriminate. }
      cbv zeta.
      destruct (event_count v + 1 =? total)%Z; [apply Hstep|].
      destruct (Datetime.ltb _ end_date
                && Datetime.leb end_date (date (Event_of_tuple t')));
        [|apply Hstep].
      cbn [fell_ok event_count next_event next_event_count event
           is_end_date_detected].
      split; [exact H0|]. split; [discriminate|].
      intros _. split; [discriminate | reflexivity].
    + cbn [fell_ok]. split; [exact H0|]. split; [|congruence].
      intros Hn. rewrite Hn in Hlast. discriminate.
  - cbn [fell_ok]. split; [exact H0|]. split; [|congruence].
    intros Hn. specialize (Hnone Hn). lia.
Qed.

Lemma lookahead_loop_returns_or_ValueError (events : list event_tuple)
    (end_date : Datetime.date) :
  forall (fuel : nat) (self : AdvanceCalculator) (i : Z) (e ne : Event),
    (0 <= i)%Z -> (1 <= fuel)%nat ->
    (Z.of_nat (List.length events) - (i + 2) < Z.of_nat fuel)%Z ->
    returns_or_ValueError
      (lookahead_loop fuel events end_date self i (i + 1) (i + 2) e ne).
Proof.
  induction fuel as [|fuel IH]; intros self i e ne Hi Hone Hfuel; [lia|].
  cbn [lookahead_loop]. unfold _get_future_event.
  destruct (Event_at events (i + 2)) as [fe|] eqn:Hfe;
    [|apply process_event_returns_or_ValueError].
  assert (Hrange : (i + 2 < Z.of_nat (List.length events))%Z).
  { unfold Event_at in Hfe.
    destruct (py_index events (i + 2)) as [t|] eqn:Hidx; [|discriminate].
    apply (py_index_in_range events (i + 2) t); [lia | exact Hidx]. }
  destruct (negb (Datetime.eqb (date ne) (date fe)));
    [apply process_event_returns_or_ValueError|].
  pose proof (process_event_returns_or_ValueError self e
                (set_is_last false ne)) as Hp.
  destruct (process_event self e (set_is_last false ne)) as [ne2 s|x s|];
    cbn [bind]; [|exact Hp|exact Hp].
  destruct (Event_at_in_range events (i + 1)) as (t & _ & He); [lia|].
  destruct (Event_at_in_range events (i + 1 + 1)) as (t' & _ & Hne); [lia|].
  rewrite He, Hne.
  replace (i + 2 + 1)%Z with (i + 1 + 2)%Z by lia.
  apply IH; lia.
Qed.

(** X14. On a list of two events or more the driver never fails on its
    own indexing or on a missing event: every call returns a result or raises
    [ValueError] (the waterfall meeting a negative interest payable); it
    raises neither [AttributeError] nor [IndexError], and its loops end. *)
Theorem statistics_on_two_events_or_more
    (self : AdvanceCalculator) (events : list event_tuple)
    (end_date : Datetime.date) :
  (2 <= List.length events)%nat ->
  returns_or_ValueError (get_advance_statistics self events end_date).
Proof.
  intros Hlen. unfold get_advance_statistics.
  set (fuel := S (List.length events)).
  pose proof (main_loop_fell_ok events end_date fuel self fresh_locals) as Hm.
  destruct (main_loop fuel events end_date
              (Z.of_nat (List.length events) - 1) self fresh_locals)
    as [[res|v] s|x s|]; cbn [bind].
  - exact I.
  - destruct Hm as (H0 & Hnext & Hdet);
      [cbn; lia | reflexivity | cbn; lia | unfold fuel; cbn; lia |].
    destruct (is_end_date_detected v).
    + destruct (Hdet eq_refl) as (Hev & Hcount).
      destruct (event v) as [e|]; [|congruence].
      destruct (next_event v) as [ne|]; [|congruence].
      destruct (Datetime.eqb end_date (date ne)).
      * rewrite Hcount.
        pose proof (lookahead_loop_returns_or_ValueError events end_date fuel
                      s (event_count v) e ne H0) as Hl.
        destruct (lookahead_loop fuel events end_date s (event_count v)
                    (event_count v + 1) (event_count v + 2) e ne)
          as [ne' s'|x s'|]; cbn [bind].
        -- apply finalize_returns_or_ValueError.
        -- apply Hl; unfold fuel; lia.
        -- apply Hl; unfold fuel; lia.
      * pose proof (process_event_returns_or_ValueError s e
                      (set_amount (D 0) (set_date end_date ne))) as Hp.
        destruct (process_event s e (set_amount (D 0) (set_date end_date ne)))
          as [ne' s'|x s'|]; cbn [bind]; [|exact Hp|exact Hp].
        apply finalize_returns_or_ValueError.
    + cbn [bind]. destruct (next_event v) as [ne|]; [|congruence].
      apply finalize_returns_or_ValueError.
  - apply Hm; [cbn; lia | reflexivity | cbn; lia | unfold fuel; cbn; lia].
  - apply Hm; [cbn; lia | reflexivity | cbn; lia | unfold fuel; cbn; lia].
Qed.

(** X18. With exactly two events, the first not dated after the end date,
    the end-date detection of the first loop never triggers (the second event
    is the last one): the call is one event-pair transition on the two
    events, the second flagged as last, followed by the finalisation on the
    event that comes back.  Interest for the first event is therefore accrued
    up to the second event's date, wherever the end date lies. *)
Theorem statistics_on_two_events
    (self : AdvanceCalculator) (t1 t2 : event_tuple)
    (end_date : Datetime.date) :
  Datetime.gtb (date (Event_of_tuple t1)) end_date = false ->
  get_advance_statistics self [t1; t2] end_date
  = (do (next_e, self') <-
       process_event self (Event_of_tuple t1)
         (set_is_last true (Event_of_tuple t2));
     finalize self' end_date (Some next_e)).
Proof.
  intros Hfirst. unfold get_advance_statistics.
  change (S (List.length [t1; t2])) with 3%nat.
  change (Z.of_nat (List.length [t1; t2]) - 1)%Z with 1%Z.
  rewrite (main_loop_turn _ [t1; t2] end_date 1 self fresh_locals
             (Event_of_tuple t1) (Event_of_tuple t2));
    [|reflexivity..].
  rewrite Hfirst. cbv zeta.
  cbn [fresh_locals next_event event_count getattr_is_same_date].
  change (0 + 1 =? 1)%Z with true. cbv iota.
  destruct (process_event self (Event_of_tuple t1)
              (set_is_last true (Event_of_tuple t2))) as [ne s|x s|];
    cbn [bind]; reflexivity.
Qed.

(** ** The collaborators *)

Lemma csv_rows_from_nth (rows : list csv_row) :
  forall (index : Z) (i : nat) (row : csv_row),
    nth_error rows i = Some row ->
    nth_error (csv_rows_from index rows) i
    = Some ((index + Z.of_nat i + 1)%Z, row_type row,
            AmtFloat (Float.of_ratio (fst (row_amount row))
                        (snd (row_amount row))),
            row_date row).
Proof.
  induction rows as [|r rest IH]; intros index i row; destruct i as [|i];
    cbn [nth_error csv_rows_from]; try discriminate.
  - intros [= <-].
    replace (index + Z.of_nat 0 + 1)%Z with (index + 1)%Z by lia.
    reflexivity.
  - intros H. rewrite (IH _ _ _ H).
    replace (index + 1 + Z.of_nat i + 1)%Z
      with (index + Z.of_nat (S i) + 1)%Z by lia.
    reflexivity.
Qed.

Lemma csv_rows_from_length (rows : list csv_row) (index : Z) :
  List.length (csv_rows_from index rows) = List.length rows.
Proof.
  revert index; induction rows as [|r rest IH]; intros index;
    cbn [csv_rows_from List.length]; [reflexivity|].
  rewrite IH. reflexivity.
Qed.

(** X16. The loader yields one tuple per row, in order; the tuple of the
    row at position [i] (from zero) carries the identifier [i + 1], the row's
    first column as kind, its third column as amount (through a float) and
    its second column as date. *)
Theorem csv_events_are_numbered_from_one (rows : list csv_row) :
  List.length (csv_events_to_list_tuple rows) = List.length rows
  /\ forall (i : nat) (row : csv_row),
       nth_error rows i = Some row ->
       nth_error (csv_events_to_list_tuple rows) i
       = Some ((Z.of_nat i + 1)%Z, row_type row,
               AmtFloat (Float.of_ratio (fst (row_amount row))
                           (snd (row_amount row))),
               row_date row).
Proof.
  split; [apply csv_rows_from_length|].
  intros i row H. unfold csv_events_to_list_tuple.
  rewrite (csv_rows_from_nth rows 0 i row H). reflexivity.
Qed.

(** X17. Asking for a future event past the end of the list is not an
    error: for an index that is not negative, [_get_future_event] answers
    [None] exactly when the index is the length of the list or more, and the
    event built from the tuple at that index otherwise. *)
Theorem future_event_lookup
    (events : list event_tuple) (future_event_count : Z) :
  (0 <= future_event_count)%Z ->
  (_get_future_event events future_event_count = None
   <-> (Z.of_nat (List.length events) <= future_event_count)%Z)
  /\ (forall t : event_tuple,
        nth_error events (Z.to_nat future_event_count) = Some t ->
        _get_future_event events future_event_count
        = Some (Event_of_tuple t)).
Proof.
  intros Hk. unfold _get_future_event, Event_at, py_index.
  destruct (Z.ltb_spec future_event_count 0); [lia|]. split.
  - destruct (nth_error events (Z.to_nat future_event_count)) as [t|] eqn:Hn;
      cbn [option_map]; split; intros Hx; try discriminate; try reflexivity.
    + assert (Z.to_nat future_event_count < List.length events)%nat
        by (apply nth_error_Some; congruence).
      lia.
    + apply nth_error_None in Hn. lia.
  - intros t Ht. rewrite Ht. reflexivity.
Qed.

(** ** Instances of the further properties *)

(** A payment of 50 on a fresh calculator is banked whole. *)
Lemma payment_with_nothing_owed_witness :
  _decrease_oldest_active_balance init (amount (payment_of 50))
  = (if Dec.gtb (amount (payment_of 50)) (D 0)
     then set_payments_for_future
            (payments_for_future init + amount (payment_of 50)) init
     else init)
  /\ _execute_payment_flow init (payment_of 50) true
     = Return tt
         (_decrease_oldest_active_balance init (amount (payment_of 50))).
Proof.
  apply (payment_with_nothing_owed init (payment_of 50) true);
    vm_compute; reflexivity.
Defined.

(** 60 applied to advances of 100 and 200. *)
Lemma payoff_within_oldest_unpaid_witness :
  advances (_decrease_oldest_active_balance two_advances (D 60))
  = [ (1, mkAdvance (Datetime.mkdate 2023 1 1) (D 100) (D 100 - D 60) false);
      (2, mkAdvance (Datetime.mkdate 2023 1 2) (D 200) (D 200) false) ]
  /\ advance_balance (_decrease_oldest_active_balance two_advances (D 60))
     = advance_balance two_advances - D 60
  /\ payments_for_future (_decrease_oldest_active_balance two_advances (D 60))
     = payments_for_future two_advances.
Proof.
  apply (payoff_within_oldest_unpaid two_advances []
           [(2, mkAdvance (Datetime.mkdate 2023 1 2) (D 200) (D 200) false)]
           1 (mkAdvance (Datetime.mkdate 2023 1 1) (D 100) (D 100) false)
           (D 60));
    vm_compute; reflexivity.
Defined.

(** 150 applied to a single advance of 100. *)
Lemma payoff_beyond_last_unpaid_witness :
  advances (_decrease_oldest_active_balance one_open_advance (D 150))
  = [ (1, mkAdvance (Datetime.mkdate 2023 1 1) (D 100) (D 0) true) ]
  /\ advance_balance (_decrease_oldest_active_balance one_open_advance (D 150))
     = advance_balance one_open_advance - D 100
  /\ payments_for_future
       (_decrease_oldest_active_balance one_open_advance (D 150))
     = Dec.abs (D 100 - D 150)
  /\ Dec.gtb
       (payments_for_future
          (_decrease_oldest_active_balance one_open_advance (D 150)))
       (D 0) = true.
Proof.
  apply (payoff_beyond_last_unpaid one_open_advance [] [] 1
           (mkAdvance (Datetime.mkdate 2023 1 1) (D 100) (D 100) false)
           (D 150));
    vm_compute; reflexivity.
Defined.

(** Payments of 1 and of 500 on [accrued_state], which owes about 3.5 of
    interest. *)
Lemma payment_pays_interest_first_witness :
  (exists self',
     _execute_payment_flow accrued_state (payment_of 1) true = Return tt self'
     /\ advances self' = advances accrued_state
     /\ Dec.gtb (interest_payable_balance self') (D 0) = true)
  /\ (exists self',
        _execute_payment_flow accrued_state (payment_of 500) false
        = Return tt self'
        /\ interest_payable_balance self' = D 0).
Proof.
  assert (Hpos : Dec.gtb (interest_payable_balance accrued_state) (D 0) = true)
    by (vm_compute; reflexivity).
  split.
  - destruct (payment_pays_interest_first accrued_state (payment_of 1) Hpos)
      as [Hbelow _].
    destruct (Hbelow ltac:(vm_compute; reflexivity) true)
      as (s & Hret & _ & _ & Hstill & Hadv & _).
    exists s. split; [exact Hret|]. split; [exact Hadv | exact Hstill].
  - destruct (payment_pays_interest_first accrued_state (payment_of 500) Hpos)
      as [_ Habove].
    destruct (Habove ltac:(vm_compute; reflexivity))
      as (s & Hret & _ & Hzero).
    exists s. split; [exact Hret | exact Hzero].
Defined.

(** No interest on a fresh calculator. *)
Lemma no_accrual_without_balance_or_days_witness :
  Dec.eqb
    (get_accrued_interests init (Datetime.mkdate 2023 1 11)
       (Datetime.mkdate 2023 1 1) false)
    (D 0) = true.
Proof.
  apply (proj1 (no_accrual_without_balance_or_days init
                  (Datetime.mkdate 2023 1 11) (Datetime.mkdate 2023 1 1)
                  false)).
  reflexivity.
Defined.

(** The identifiers after the pre-funded run. *)
Lemma identifiers_increase_witness : keys_ok prefunded_state.
Proof.
  apply identifiers_increase.
  unfold prefunded_state. apply reach_statistics; [apply reach_init|].
  repeat constructor.
Defined.

(** The credit after the pre-funded run. *)
Lemma credit_never_negative_witness :
  Dec.ltb (payments_for_future prefunded_state) (D 0) = false.
Proof.
  apply credit_never_negative.
  unfold prefunded_state. apply reach_statistics; [apply reach_init|].
  repeat constructor.
Defined.

(** The first advance on a fresh calculator. *)
Lemma create_advance_record_witness :
  advance_count one_open_advance = 1%Z
  /\ exists opening : Decimal,
       advances one_open_advance
       = [ (1%Z, mkAdvance (Datetime.mkdate 2023 1 1) (D 100) opening false) ]
       /\ opening = D 100.
Proof.
  assert (Hk : keys_ok init) by (split; [cbn; lia | exact I]).
  destruct (create_advance_record init advance_of_100 true Hk)
    as (Hcount & _ & Hrec).
  split; [exact Hcount|].
  destruct (Hrec eq_refl) as (opening & Hadv & _ & Hnone & _).
  exists opening. split; [exact Hadv|].
  exact (proj1 (Hnone eq_refl)).
Defined.

(** The transition that leads to [accrued_state]. *)
Lemma process_event_bookkeeping_witness :
  snapshot_of init accrued_state
  /\ last_event accrued_state
     = Some (mkEvent 1 EVENT_ADVANCE_TYPE (D 1000) (Datetime.mkdate 2023 1 1)
               false false None).
Proof.
  destruct (process_event_bookkeeping init
              (mkEvent 1 EVENT_ADVANCE_TYPE (D 1000) (Datetime.mkdate 2023 1 1)
                 false false None)
              (mkEvent 2 EVENT_PAYMENT_TYPE (D 5) (Datetime.mkdate 2023 1 11)
                 true false None))
    as (Hsnap & Hret & _).
  split; [exact Hsnap|].
  refine (proj1 (Hret
                   (mkEvent 2 EVENT_PAYMENT_TYPE (D 5)
                      (Datetime.mkdate 2023 1 11) true false None)
                   accrued_state _)).
  vm_compute; reflexivity.
Defined.

(** A fee after an advance, as current event and as last event. *)
Lemma unknown_event_kind_is_ignored_witness :
  (exists (next_e' : Event) (self' : AdvanceCalculator),
     process_event one_open_advance fee_event (payment_of 5)
     = Return next_e' self'
     /\ same_balances one_open_advance self'
     /\ advances self' = advances one_open_advance
     /\ advance_count self' = advance_count one_open_advance)
  /\ finalize one_open_advance (Datetime.mkdate 2023 1 1) (Some fee_event)
     = Return (Dec.abs (advance_balance one_open_advance),
               Dec.abs (interest_payable_balance one_open_advance),
               Dec.abs (interest_paid one_open_advance),
               Dec.abs (payments_for_future one_open_advance))
         one_open_advance.
Proof.
  destruct (unknown_event_kind_is_ignored one_open_advance fee_event
              (payment_of 5) (Datetime.mkdate 2023 1 1) eq_refl eq_refl)
    as [Hstep Hfin].
  split; [exact Hstep | apply Hfin; reflexivity].
Defined.

(** The three events queried the day before the first. *)
Lemma statistics_before_first_event_witness :
  get_advance_statistics init three_events (Datetime.mkdate 2023 1 4)
  = Return (D 0, D 0, D 0, D 0) init.
Proof.
  apply (statistics_before_first_event init
           (1, EVENT_ADVANCE_TYPE, AmtInt 100, Datetime.mkdate 2023 1 5)
           (2, EVENT_ADVANCE_TYPE, AmtInt 50, Datetime.mkdate 2023 1 6)
           [(3, EVENT_PAYMENT_TYPE, AmtInt 10, Datetime.mkdate 2023 1 7)]
           (Datetime.mkdate 2023 1 4)).
  reflexivity.
Defined.

(** The three events queried on the date of the first. *)
Lemma statistics_zero_after_end_date_event_witness :
  exists self',
    get_advance_statistics init three_events (Datetime.mkdate 2023 1 5)
    = Return (D 0, D 0, D 0, D 0) self'
    /\ advances self'
       = [ (1%Z, mkAdvance (Datetime.mkdate 2023 1 5) (D 100) (D 100) false) ].
Proof.
  eexists. split.
  - apply (statistics_zero_after_end_date_event init _
             (1, EVENT_ADVANCE_TYPE, AmtInt 100, Datetime.mkdate 2023 1 5)
             (2, EVENT_ADVANCE_TYPE, AmtInt 50, Datetime.mkdate 2023 1 6)
             (3, EVENT_PAYMENT_TYPE, AmtInt 10, Datetime.mkdate 2023 1 7)
             [] (Datetime.mkdate 2023 1 5)
             (mkEvent 2 EVENT_ADVANCE_TYPE (D 50) (Datetime.mkdate 2023 1 6)
                false false None)).
    + reflexivity.
    + reflexivity.
    + vm_compute. reflexivity.
  - reflexivity.
Defined.

(** The three events, whatever the end date. *)
Lemma statistics_on_two_events_or_more_witness :
  returns_or_ValueError
    (get_advance_statistics init three_events (Datetime.mkdate 2023 1 6)).
Proof.
  apply statistics_on_two_events_or_more. simpl. lia.
Defined.

(** The advance of 1000 and the payment of 500, queried on 2023-01-11. *)
Lemma statistics_results_not_negative_witness :
  Dec.ltb (Dec.mkD 5017499999999999999822190844 (-25)) (D 0) = false
  /\ Dec.ltb (Dec.mkD 1053674999999999989256770777 (-27)) (D 0) = false
  /\ Dec.ltb (Dec.mkD 1749999999999999982219084371 (-27)) (D 0) = false
  /\ Dec.ltb (D 0) (D 0) = false.
Proof.
  refine (proj2 (statistics_results_not_negative init
                   (object_after init
                      (get_advance_statistics init advance_then_payment
                         (Datetime.mkdate 2023 1 11)))
                   advance_then_payment (Datetime.mkdate 2023 1 11)
                   _ _ _ _ _)).
  vm_compute. reflexivity.
Defined.

(** The same run as one transition and a finalisation. *)
Lemma statistics_on_two_events_witness :
  get_advance_statistics init advance_then_payment (Datetime.mkdate 2023 1 11)
  = (do (next_e, self') <-
       process_event init
         (Event_of_tuple
            (1, EVENT_ADVANCE_TYPE, AmtInt 1000, Datetime.mkdate 2023 1 1))
         (set_is_last true
            (Event_of_tuple
               (2, EVENT_PAYMENT_TYPE, AmtInt 500, Datetime.mkdate 2023 1 6)));
     finalize self' (Datetime.mkdate 2023 1 11) (Some next_e)).
Proof.
  apply (statistics_on_two_events init
           (1, EVENT_ADVANCE_TYPE, AmtInt 1000, Datetime.mkdate 2023 1 1)
           (2, EVENT_PAYMENT_TYPE, AmtInt 500, Datetime.mkdate 2023 1 6)
           (Datetime.mkdate 2023 1 11)).
  reflexivity.
Defined.

(** A file of two rows. *)
Lemma csv_events_are_numbered_from_one_witness :
  nth_error
    (csv_events_to_list_tuple
       [ mkRow EVENT_ADVANCE_TYPE (Datetime.mkdate 2023 1 1) (1000, 1)%Z;
         mkRow EVENT_PAYMENT_TYPE (Datetime.mkdate 2023 1 6) (5, 10)%Z ]) 1
  = Some (2%Z, EVENT_PAYMENT_TYPE, AmtFloat (Float.of_ratio 5 10),
          Datetime.mkdate 2023 1 6).
Proof.
  apply (proj2 (csv_events_are_numbered_from_one
                  [ mkRow EVENT_ADVANCE_TYPE (Datetime.mkdate 2023 1 1)
                      (1000, 1)%Z;
                    mkRow EVENT_PAYMENT_TYPE (Datetime.mkdate 2023 1 6)
                      (5, 10)%Z ])
           1%nat
           (mkRow EVENT_PAYMENT_TYPE (Datetime.mkdate 2023 1 6) (5, 10)%Z)).
  reflexivity.
Defined.

(** Looking past the three events, and at the last of them. *)
Lemma future_event_lookup_witness :
  _get_future_event three_events 3 = None
  /\ _get_future_event three_events 2
     = Some (mkEvent 3 EVENT_PAYMENT_TYPE (D 10) (Datetime.mkdate 2023 1 7)
               false false None).
Proof.
  split.
  - apply (proj1 (future_event_lookup three_events 3 ltac:(lia))).
    simpl. lia.
  - apply (proj2 (future_event_lookup three_events 2 ltac:(lia))
             (3, EVENT_PAYMENT_TYPE, AmtInt 10, Datetime.mkdate 2023 1 7)).
    reflexivity.
Defined.
